(** * Grade tracker: the grade converter, the average aggregator and the
      chart series of [app.tsx], embedded over the ECMAScript number type.

    A JavaScript number is an IEEE 754 binary64 value, which is what Rocq's
    primitive [float] is: [+], [*], [/] and the comparisons below are the
    operations the program runs, including NaN, the infinities and the two
    zeros.  The few runtime functions the program calls ([toFixed],
    [parseFloat], property lookup on an object literal, [Object.keys]) are
    modelled in [Module JS] from ECMA-262. *)

From Stdlib Require Import ZArith NArith QArith Qround Qabs List String Ascii Bool Lia.
From Stdlib Require Import Floats DecimalString DecimalN.
From Stdlib Require Import Qpower DecimalPos Permutation.
Import ListNotations.

Set Warnings "-inexact-float".

#[local] Open Scope list_scope.
#[local] Open Scope string_scope.

(* ================================================================== *)
(** * The ECMAScript runtime the program relies on *)
(* ================================================================== *)

Module JS.

(** ** Numbers *)

Definition number : Type := float.

(** [x >= y] and [x > y]: both are false as soon as an operand is NaN. *)
Definition ge (x y : number) : bool := PrimFloat.leb y x.
Definition gt (x y : number) : bool := PrimFloat.ltb y x.

(** ToBoolean on a number: [+0], [-0] and NaN are the falsy numbers. *)
Definition truthy (x : number) : bool := negb (is_zero x || is_nan x).

(** [x || d] where [x] is an optional number field. *)
Definition number_or (x : option number) (d : number) : number :=
  match x with
  | Some v => if truthy v then v else d
  | None => d
  end.

(** [s || d] where [s] is an optional string field: the empty string is
    the only falsy string. *)
Definition string_or (s : option string) (d : string) : string :=
  match s with
  | Some v => if String.eqb v "" then d else v
  | None => d
  end.

(** [a || d] where [a] is an optional array: every array is truthy. *)
Definition array_or {A : Type} (a : option (list A)) (d : list A) : list A :=
  match a with
  | Some v => v
  | None => d
  end.

(** [Array.prototype.reduce] with an initial value. *)
Definition reduce {A B : Type} (f : B -> A -> B) (init : B) (l : list A) : B :=
  fold_left f l init.

(** ** Ordinary objects used as string-keyed maps

    The own properties are kept in creation order.  An object literal
    inherits from [Object.prototype], so a property read that finds no
    own property continues along the prototype chain. *)

Definition object (V : Type) : Type := list (string * V).

Definition objectPrototypeNames : list string :=
  [ "constructor"; "hasOwnProperty"; "isPrototypeOf"; "propertyIsEnumerable";
    "toLocaleString"; "toString"; "valueOf"; "__proto__";
    "__defineGetter__"; "__defineSetter__"; "__lookupGetter__";
    "__lookupSetter__" ].

Definition mem (k : string) (l : list string) : bool :=
  existsb (String.eqb k) l.

Fixpoint getOwn {V : Type} (o : object V) (k : string) : option V :=
  match o with
  | [] => None
  | (k', v) :: o' => if String.eqb k k' then Some v else getOwn o' k
  end.

(** What a property read evaluates to: an own value, or a member of
    [Object.prototype] (a function, or the prototype object itself for
    [__proto__]); [None] stands for [undefined]. *)
Inductive prop (V : Type) : Type :=
| Own (v : V)
| Inherited (name : string).
Arguments Own {V} v.
Arguments Inherited {V} name.

Definition get {V : Type} (o : object V) (k : string) : option (prop V) :=
  match getOwn o k with
  | Some v => Some (Own v)
  | None => if mem k objectPrototypeNames then Some (Inherited k) else None
  end.

(** [r ?? d]: only [undefined] (and [null]) are replaced. *)
Definition nullish {V : Type} (r : option (prop V)) (d : V) : prop V :=
  match r with
  | Some p => p
  | None => Own d
  end.

(** ToNumber on the result of a read from a table of numbers: a function
    or a plain object converts to NaN. *)
Definition toNumber (p : prop number) : number :=
  match p with
  | Own x => x
  | Inherited _ => nan
  end.

(** [o[k] = v] for a key that is not a member of the prototype with a
    setter: an existing own property keeps its position, a new one is
    created last. *)
Fixpoint set {V : Type} (o : object V) (k : string) (v : V) : object V :=
  match o with
  | [] => [(k, v)]
  | (k', v') :: o' =>
      if String.eqb k k' then (k', v) :: o' else (k', v') :: set o' k v
  end.

(** ** Decimal digits *)

Definition digits (n : N) : string :=
  NilEmpty.string_of_uint (N.to_uint n).

Definition ofDigits (s : string) : option N :=
  match s with
  | "" => None
  | _ => option_map N.of_uint (NilEmpty.uint_of_string s)
  end.

Definition isDigit (c : ascii) : bool :=
  let n := nat_of_ascii c in (48 <=? n)%nat && (n <=? 57)%nat.

Fixpoint allDigits (s : string) : bool :=
  match s with
  | "" => true
  | String c s' => isDigit c && allDigits s'
  end.

Fixpoint zeros (n : nat) : string :=
  match n with
  | O => ""
  | S n' => String "0" (zeros n')
  end.

(** An array index is a canonical numeric string below [2^32 - 1]. *)
Definition arrayIndex (k : string) : option N :=
  match k with
  | "" => None
  | String c rest =>
      if allDigits k && (negb (Ascii.eqb c "0") || String.eqb rest "")
      then match ofDigits k with
           | Some n => if (n <? 4294967295)%N then Some n else None
           | None => None
           end
      else None
  end.

Fixpoint insertIndex (x : N * string) (l : list (N * string)) : list (N * string) :=
  match l with
  | [] => [x]
  | y :: l' => if (fst x <=? fst y)%N then x :: l else y :: insertIndex x l'
  end.

Fixpoint indexKeys (ks : list string) : list (N * string) :=
  match ks with
  | [] => []
  | k :: ks' =>
      match arrayIndex k with
      | Some n => insertIndex (n, k) (indexKeys ks')
      | None => indexKeys ks'
      end
  end.

Definition isIndex (k : string) : bool :=
  match arrayIndex k with Some _ => true | None => false end.

(** [Object.keys]: the array-index keys in ascending numeric order, then
    the other string keys in creation order. *)
Definition keys {V : Type} (o : object V) : list string :=
  let ks := map fst o in
  (map snd (indexKeys ks) ++ filter (fun k => negb (isIndex k)) ks)%list.

(** ** The mathematical value of a number *)

Definition pow10 (e : Z) : Q := Qpower (10 # 1) e.

(** The real number a finite number denotes; [None] for NaN and the
    infinities. *)
Definition real (x : number) : option Q :=
  match Prim2SF x with
  | S754_zero _ => Some (0 # 1)
  | S754_finite s m e =>
      let r := Qred ((Z.pos m # 1) * Qpower (2 # 1) e) in
      Some (if s then Qopp r else r)
  | S754_infinity _ | S754_nan => None
  end.

(** ** Number::toString (ECMA-262, 6.1.6.1.20)

    For a finite non-zero [m * 2^e] the digits are those of the shortest
    decimal [s * 10^E] that rounds back to the same number; when several
    have that length the closest one is taken, as every engine does.  The
    reals that round to [m * 2^e] form the interval [lo, hi] between the
    midpoints to its two neighbours, closed when [m] is even. *)

Section Shortest.
Variables (v lo hi : Q) (closed : bool).

Definition nearest (q : Q) : Z :=
  let fl := Qfloor q in
  match Qcompare (q - (fl # 1)) (1 # 2) with
  | Lt => fl
  | Gt => fl + 1
  | Eq => if Z.even fl then fl else fl + 1
  end%Z.

Fixpoint shortest (fuel : nat) (E : Z) : Z * Z :=
  match fuel with
  | O => (0, E)%Z
  | S fuel' =>
      let p := pow10 E in
      let smin := (if closed then Qceiling (lo / p) else Qfloor (lo / p) + 1)%Z in
      let smax := (if closed then Qfloor (hi / p) else Qceiling (hi / p) - 1)%Z in
      if (smin <=? smax)%Z
      then (Z.max smin (Z.min smax (nearest (v / p))), E)
      else shortest fuel' (E - 1)%Z
  end.
End Shortest.

Definition positiveToString (m : positive) (e : Z) : string :=
  let two := Qpower (2 # 1) in
  let v := Qred ((Z.pos m # 1) * two e) in
  let hi := Qred ((2 * Z.pos m + 1 # 1) * two (e - 1)%Z) in
  let lo :=
    if ((Z.pos m =? 2 ^ 52) && (-1074 <? e))%Z
    then Qred ((4 * Z.pos m - 1 # 1) * two (e - 2)%Z)
    else Qred ((2 * Z.pos m - 1 # 1) * two (e - 1)%Z) in
  let '(s, E) := shortest v lo hi (Z.even (Z.pos m)) 700 309%Z in
  let ds := digits (Z.to_N s) in
  let k := Z.of_nat (String.length ds) in
  let n := (k + E)%Z in
  if ((k <=? n) && (n <=? 21))%Z then
    ds ++ zeros (Z.to_nat (n - k))
  else if ((0 <? n) && (n <=? 21))%Z then
    substring 0 (Z.to_nat n) ds ++ "." ++ substring (Z.to_nat n) (Z.to_nat (k - n)) ds
  else if ((-6 <? n) && (n <=? 0))%Z then
    "0." ++ zeros (Z.to_nat (- n)) ++ ds
  else
    let ex := (if (n - 1 <? 0)%Z then "-" else "+") ++ digits (Z.abs_N (n - 1)) in
    if (k =? 1)%Z then ds ++ "e" ++ ex
    else substring 0 1 ds ++ "." ++ substring 1 (Z.to_nat (k - 1)) ds ++ "e" ++ ex.

Definition numberToString (x : number) : string :=
  match Prim2SF x with
  | S754_nan => "NaN"
  | S754_zero _ => "0"
  | S754_infinity s => if s then "-Infinity" else "Infinity"
  | S754_finite s m e => (if s then "-" else "") ++ positiveToString m e
  end.

(** ** Number.prototype.toFixed (ECMA-262, 21.1.3.3)

    A non-finite number prints as [Number::toString] does; otherwise the
    sign is split off, a magnitude of 10^21 or more prints as
    [Number::toString] does, and below that [n] is the integer nearest to
    [x * 10^f] (the larger one of two), printed with at least [f + 1]
    digits and a point before the last [f]. *)

Definition toFixed (f : nat) (x : number) : string :=
  match real x with
  | None => numberToString x
  | Some r =>
      let s := if Qle_bool (0 # 1) r then "" else "-" in
      let r := Qabs r in
      if Qle_bool (pow10 21) r then s ++ numberToString (abs x)
      else
        let n := Z.to_N (Qfloor (r * pow10 (Z.of_nat f) + (1 # 2))) in
        let m := digits n in
        let m := if (String.length m <=? f)%nat
                 then zeros (f + 1 - String.length m) ++ m else m in
        let k := String.length m in
        if (f =? 0)%nat then s ++ m
        else s ++ substring 0 (k - f) m ++ "." ++ substring (k - f) f m
  end.

(** ** Strings and white space

    A string is held as the bytes of the UTF-8 encoding of the JavaScript
    string: equality and concatenation are those of the byte sequences,
    and an ASCII character (a digit, a sign, the point, the space of a
    chart key) is a byte that occurs in no longer encoding.  White space
    is what [TrimString] strips: the WhiteSpace and LineTerminator code
    points (ECMA-262, 12.2 and 12.3), recognised below by their
    encodings. *)

(** ** parseFloat (ECMA-262, 19.2.4)

    Leading white space is skipped, then the longest prefix that is a
    decimal literal is read: an optional sign, then [Infinity] or digits
    with an optional fraction and an optional exponent.  No such prefix
    gives NaN. *)

(** The white space and line terminator code points below U+0080, one
    byte each: U+0009 to U+000D and U+0020. *)
Definition isWhiteSpace (c : ascii) : bool :=
  let n := nat_of_ascii c in
  ((9 <=? n) && (n <=? 13) || (n =? 32))%nat.

(** The one of two bytes: U+00A0. *)
Definition isWhiteSpace2 (c1 c2 : ascii) : bool :=
  ((nat_of_ascii c1 =? 194) && (nat_of_ascii c2 =? 160))%nat.

(** Those of three bytes: U+1680, U+2000 to U+200A, U+2028, U+2029,
    U+202F, U+205F, U+3000 and U+FEFF. *)
Definition isWhiteSpace3 (c1 c2 c3 : ascii) : bool :=
  let n1 := nat_of_ascii c1 in
  let n2 := nat_of_ascii c2 in
  let n3 := nat_of_ascii c3 in
  ((n1 =? 225) && (n2 =? 154) && (n3 =? 128)
   || (n1 =? 226) && (n2 =? 128)
      && ((128 <=? n3) && (n3 <=? 138) || (n3 =? 168) || (n3 =? 169) || (n3 =? 175))
   || (n1 =? 226) && (n2 =? 129) && (n3 =? 159)
   || (n1 =? 227) && (n2 =? 128) && (n3 =? 128)
   || (n1 =? 239) && (n2 =? 187) && (n3 =? 191))%nat.

(** Skips every leading white space code point. *)
Fixpoint trimStart (s : string) : string :=
  match s with
  | "" => ""
  | String c1 r1 =>
      if isWhiteSpace c1 then trimStart r1
      else if (nat_of_ascii c1 <? 128)%nat then s
      else
        match r1 with
        | "" => s
        | String c2 r2 =>
            if isWhiteSpace2 c1 c2 then trimStart r2
            else
              match r2 with
              | "" => s
              | String c3 r3 =>
                  if isWhiteSpace3 c1 c2 c3 then trimStart r3 else s
              end
        end
  end.

(** The longest prefix of decimal digits, and what follows it. *)
Fixpoint spanDigits (s : string) : string * string :=
  match s with
  | String c s' =>
      if isDigit c then let '(d, r) := spanDigits s' in (String c d, r)
      else ("", s)
  | "" => ("", "")
  end.

Definition digitsValue (s : string) : N :=
  match NilEmpty.uint_of_string s with
  | Some d => N.of_uint d
  | None => 0%N
  end.

(** The number nearest to [(-1)^neg * mant * 10^e10], ties to even. *)
Definition ofDecimal (neg : bool) (mant : N) (e10 : Z) : number :=
  match mant with
  | N0 => if neg then neg_zero else zero
  | Npos p =>
      let num := if (0 <? e10)%Z then (p * Pos.pow 10 (Z.to_pos e10))%positive else p in
      let den := if (e10 <? 0)%Z then Pos.pow 10 (Z.to_pos (- e10)) else 1%positive in
      SF2Prim (SFdiv prec emax (S754_finite neg num 0) (S754_finite false den 0))
  end.

Definition exponentPart (s : string) : Z :=
  match s with
  | String c r =>
      if (Ascii.eqb c "e" || Ascii.eqb c "E")%bool then
        let '(sg, r') :=
          match r with
          | String "-" r' => (true, r')
          | String "+" r' => (false, r')
          | _ => (false, r)
          end in
        let '(d, _) := spanDigits r' in
        let n := Z.of_N (digitsValue d) in
        if sg then (- n)%Z else n
      else 0%Z
  | "" => 0%Z
  end.

Definition parseFloat (input : string) : number :=
  let s := trimStart input in
  let '(neg, s) :=
    match s with
    | String "-" r => (true, r)
    | String "+" r => (false, r)
    | _ => (false, s)
    end in
  if prefix "Infinity" s then (if neg then neg_infinity else infinity)
  else
    let '(ip, r1) := spanDigits s in
    let '(fp, r2) :=
      match r1 with
      | String "." r => spanDigits r
      | _ => ("", r1)
      end in
    if (String.eqb ip "" && String.eqb fp "")%bool then nan
    else ofDecimal neg (digitsValue (ip ++ fp))
                   (exponentPart r2 - Z.of_nat (String.length fp)).

End JS.

(* ================================================================== *)
(** * app.tsx *)
(* ================================================================== *)

#[local] Open Scope float_scope.

(** ** Type definitions *)

Record Assignment : Type := {
  name : string;
  grade : option JS.number;   (* null means not yet graded *)
  weight : JS.number          (* weight percentage for this assignment *)
}.

Inductive EntryType : Type := final | scale.

Record CourseEntry : Type := {
  id : option string;
  course : string;
  year : string;
  semester : string;
  goalGrade : string;
  entryType : EntryType;
  finalGrade : option string;
  assignments : option (list Assignment);
  credits : option JS.number
}.

(** ** Mapping and helper functions *)

Definition letterToNumeric : JS.object JS.number :=
  [ ("A+", 10); ("A", 9); ("A-", 8); ("B+", 7); ("B", 6); ("C+", 5);
    ("C", 4); ("D+", 3); ("D", 2); ("E", 1); ("F", 0); ("ABS", 0);
    ("EIN", 0) ].

Definition percentageToLetter (percentage : JS.number) : string :=
  if JS.ge percentage 90 then "A+"
  else if JS.ge percentage 85 then "A"
  else if JS.ge percentage 80 then "A-"
  else if JS.ge percentage 75 then "B+"
  else if JS.ge percentage 70 then "B"
  else if JS.ge percentage 65 then "C+"
  else if JS.ge percentage 60 then "C"
  else if JS.ge percentage 55 then "D+"
  else if JS.ge percentage 50 then "D"
  else if JS.ge percentage 40 then "E"
  else "F".

(** ** Chart data

    The construction appears twice, in [App] and in [ChartAnalytics]; the
    two copies run the same statements and differ only in which
    [computeAverageCGPA] is in scope, so the statements are written once
    over that function.  A result of [None] stands for a thrown
    [TypeError]. *)

Definition groupKeyOf (entry : CourseEntry) : string :=
  year entry ++ " " ++ semester entry.

Section ChartData.
Variable cgpaOf : list CourseEntry -> string.

(** One iteration of [progressData.forEach]. *)
Definition addToGroup (groups : option (JS.object (list CourseEntry)))
    (entry : CourseEntry) : option (JS.object (list CourseEntry)) :=
  match groups with
  | None => None
  | Some semesterGroups =>
      let key := groupKeyOf entry in
      let semesterGroups :=
        match JS.get semesterGroups key with
        | None => JS.set semesterGroups key []
        | Some _ => semesterGroups
        end in
      match JS.get semesterGroups key with
      | Some (JS.Own arr) => Some (JS.set semesterGroups key (arr ++ [entry])%list)
      | Some (JS.Inherited _) | None => None
      end
  end.

(** One iteration of [Object.keys(semesterGroups).forEach]. *)
Definition addSeries (semesterGroups : JS.object (list CourseEntry))
    (acc : option (list string * list JS.number)) (groupKey : string)
    : option (list string * list JS.number) :=
  match acc with
  | None => None
  | Some (labels, dataValues) =>
      match JS.get semesterGroups groupKey with
      | Some (JS.Own arr) =>
          let cgpa := JS.parseFloat (cgpaOf arr) in
          Some (labels ++ [groupKey], dataValues ++ [cgpa])%list
      | Some (JS.Inherited _) | None => None
      end
  end.

Definition buildChartData (progressData : list CourseEntry) (totalCgpa : string)
    : option (list string * list JS.number) :=
  match fold_left addToGroup progressData (Some []) with
  | None => None
  | Some semesterGroups =>
      match fold_left (addSeries semesterGroups) (JS.keys semesterGroups)
                      (Some ([], [])) with
      | None => None
      | Some (labels, dataValues) =>
          Some (labels ++ ["Overall"],
                dataValues ++
                  [JS.parseFloat (if String.eqb totalCgpa "N/A" then "0" else totalCgpa)])%list
      end
  end.
End ChartData.

(** ** The functions declared inside the [App] component *)

Module App.

Definition computeEntryNumeric (entry : CourseEntry) : JS.prop JS.number :=
  match entryType entry with
  | final =>
      JS.nullish (JS.get letterToNumeric (JS.string_or (finalGrade entry) "F")) 0
  | scale =>
      let assignments := JS.array_or (assignments entry) [] in
      let totalWeight := JS.reduce (fun sum a => sum + weight a) 0 assignments in
      let weightedSum :=
        JS.reduce
          (fun sum a => sum + (match grade a with Some g => g | None => 0 end) * weight a)
          0 assignments in
      let avgPercentage :=
        if JS.gt totalWeight 0 then weightedSum / totalWeight else 0 in
      let computedLetter := percentageToLetter avgPercentage in
      JS.nullish (JS.get letterToNumeric computedLetter) 0
  end.

Definition computeAverageCGPA (entries : list CourseEntry) : string :=
  if (List.length entries =? 0)%nat then "N/A"
  else
    let '(totalWeighted, totalCredits) :=
      fold_left
        (fun '(totalWeighted, totalCredits) entry =>
           let credits := JS.number_or (credits entry) 3 in
           (totalWeighted + JS.toNumber (computeEntryNumeric entry) * credits,
            totalCredits + credits))
        entries (0, 0) in
    JS.toFixed 2 (totalWeighted / totalCredits).

(** [chartData] as [App] builds it on every render from [progressData]. *)
Definition chartData (progressData : list CourseEntry)
    : option (list string * list JS.number) :=
  let totalCgpa := computeAverageCGPA progressData in
  buildChartData computeAverageCGPA progressData totalCgpa.

End App.

(** ** The module-level functions, used by [ChartAnalytics] *)

Definition computeEntryNumeric (entry : CourseEntry) : JS.prop JS.number :=
  match entryType entry with
  | final =>
      JS.nullish (JS.get letterToNumeric (JS.string_or (finalGrade entry) "F")) 0
  | scale =>
      let assignments := JS.array_or (assignments entry) [] in
      let totalWeight := JS.reduce (fun sum a => sum + weight a) 0 assignments in
      let weightedSum :=
        JS.reduce
          (fun sum a => sum + (match grade a with Some g => g | None => 0 end) * weight a)
          0 assignments in
      let avgPercentage :=
        if JS.gt totalWeight 0 then weightedSum / totalWeight else 0 in
      let computedLetter := percentageToLetter avgPercentage in
      JS.nullish (JS.get letterToNumeric computedLetter) 0
  end.

Definition computeAverageCGPA (entries : list CourseEntry) : string :=
  if (List.length entries =? 0)%nat then "N/A"
  else
    let '(totalWeighted, totalCredits) :=
      fold_left
        (fun '(totalWeighted, totalCredits) entry =>
           let credits := JS.number_or (credits entry) 3 in
           (totalWeighted + JS.toNumber (computeEntryNumeric entry) * credits,
            totalCredits + credits))
        entries (0, 0) in
    JS.toFixed 2 (totalWeighted / totalCredits).

(** The [ChartAnalytics] component, given its two props. *)
Definition ChartAnalytics (progressData : list CourseEntry) (totalCgpa : string)
    : option (list string * list JS.number) :=
  buildChartData computeAverageCGPA progressData totalCgpa.

(* ================================================================== *)
(** * The specification's formulas *)
(* ================================================================== *)

Module Spec.

(** [Σ]: the sum of a sequence of terms taken in order, by the recurrence
    on partial sums [S_0 = 0], [S_(n+1) = S_n + t_(n+1)]. *)
Fixpoint partialSum (reversed : list JS.number) : JS.number :=
  match reversed with
  | [] => 0
  | t :: earlier => partialSum earlier + t
  end.

Definition Sigma (terms : list JS.number) : JS.number :=
  partialSum (rev terms).

(** The letters a percentage can map to. *)
Definition letters : list string :=
  ["A+"; "A"; "A-"; "B+"; "B"; "C+"; "C"; "D+"; "D"; "E"; "F"].

(** The threshold ladder, highest first. *)
Definition ladder : list (JS.number * string) :=
  [ (90, "A+"); (85, "A"); (80, "A-"); (75, "B+"); (70, "B"); (65, "C+");
    (60, "C"); (55, "D+"); (50, "D"); (40, "E") ].

Definition letterFor (p : JS.number) : string :=
  match find (fun t => JS.ge p (fst t)) ladder with
  | Some (_, letter) => letter
  | None => "F"
  end.

(** The grade-point value of a percentage: the table entry of its letter. *)
Definition gradePoint (p : JS.number) : JS.number :=
  JS.toNumber (JS.nullish (JS.get letterToNumeric (percentageToLetter p)) 0).

(** Scale entries. *)
Definition gradeOrZero (a : Assignment) : JS.number :=
  match grade a with
  | Some g => g
  | None => 0
  end.

Definition totalWeight (l : list Assignment) : JS.number :=
  Sigma (map weight l).

Definition weightedSum (l : list Assignment) : JS.number :=
  Sigma (map (fun a => gradeOrZero a * weight a) l).

Definition avgPercentage (l : list Assignment) : JS.number :=
  if JS.gt (totalWeight l) 0 then weightedSum l / totalWeight l else 0.

(** Credits, 3 when the field is absent or falsy. *)
Definition creditsOf (entry : CourseEntry) : JS.number :=
  match credits entry with
  | None => 3
  | Some c => if (is_zero c || is_nan c)%bool then 3 else c
  end.

Definition totalWeightedPoints (entries : list CourseEntry) : JS.number :=
  Sigma (map (fun e => JS.toNumber (computeEntryNumeric e) * creditsOf e) entries).

Definition totalCredits (entries : list CourseEntry) : JS.number :=
  Sigma (map creditsOf entries).

(** Reading back a decimal with exactly two fractional digits: the sign
    and the value in hundredths; [None] for any other string. *)
Definition readFixed2 (s : string) : option (bool * N) :=
  let '(neg, body) :=
    match s with
    | String "-" r => (true, r)
    | _ => (false, s)
    end in
  let '(ip, r) := JS.spanDigits body in
  match r with
  | String "." fp =>
      if (negb (String.eqb ip "") && JS.allDigits fp
          && (String.length fp =? 2)%nat)%bool
      then Some (neg, JS.digitsValue (ip ++ fp))
      else None
  | _ => None
  end.

Definition twoFractionDigits (s : string) : bool :=
  match readFixed2 s with
  | Some _ => true
  | None => false
  end.

(** A quotient rounded to the nearest hundredth, halves upwards in
    magnitude. *)
Definition hundredths (r : Q) : N :=
  Z.to_N (Qfloor (Qabs r * (100 # 1) + (1 # 2))).

(** Chart groups: the distinct keys in the order of their first
    occurrence, and the entries of one group. *)
Fixpoint encounterOrder (ks : list string) : list string :=
  match ks with
  | [] => []
  | k :: ks' => k :: filter (fun k' => negb (String.eqb k' k)) (encounterOrder ks')
  end.

Definition groupKeys (progressData : list CourseEntry) : list string :=
  encounterOrder (map groupKeyOf progressData).

Definition groupOf (progressData : list CourseEntry) (k : string) : list CourseEntry :=
  filter (fun e => String.eqb (groupKeyOf e) k) progressData.

(** The object whose own keys are [K], in that order, each holding [f k]. *)
Definition tabulate {V : Type} (f : string -> V) (K : list string) : JS.object V :=
  map (fun k => (k, f k)) K.

Definition groupsOf (progressData : list CourseEntry) : JS.object (list CourseEntry) :=
  tabulate (groupOf progressData) (groupKeys progressData).

(** A CGPA string as a chart value: parsed as a number, the sentinel
    mapped to 0. *)
Definition chartValue (cgpa : string) : JS.number :=
  if String.eqb cgpa "N/A" then 0 else JS.parseFloat cgpa.

Fixpoint hasSpace (s : string) : bool :=
  match s with
  | "" => false
  | String c s' => Ascii.eqb c " " || hasSpace s'
  end.

End Spec.

(** Entries used in the examples. *)
Definition finalEntry (g : string) (c : option JS.number) : CourseEntry :=
  {| id := None; course := "CSC1010"; year := "2024"; semester := "Fall";
     goalGrade := "A"; entryType := final; finalGrade := Some g;
     assignments := None; credits := c |}.

Definition scaleEntry (l : list Assignment) : CourseEntry :=
  {| id := None; course := "CSC1010"; year := "2024"; semester := "Fall";
     goalGrade := "A"; entryType := scale; finalGrade := None;
     assignments := Some l; credits := Some 3 |}.

Definition exampleAssignments : list Assignment :=
  [ {| name := "midterm"; grade := Some 80; weight := 50 |};
    {| name := "exam"; grade := None; weight := 50 |} ].

Definition termEntry (y s g : string) : CourseEntry :=
  {| id := None; course := "CSC1010"; year := y; semester := s;
     goalGrade := "A"; entryType := final; finalGrade := Some g;
     assignments := None; credits := Some 3 |}.

Definition exampleProgress : list CourseEntry :=
  [ termEntry "2024" "Fall" "A"; termEntry "2023" "Winter" "B";
    termEntry "2024" "Fall" "C" ].

(* ================================================================== *)
(** * The rest of [App]: state, handlers and derived values *)
(* ================================================================== *)

(** ** More of the runtime *)

Module JSLib.

(** [String.prototype.trim], over the white space of [JS.trimStart]: the
    end is cut where what remains is white space only. *)
Fixpoint trimEnd (s : string) : string :=
  match s with
  | "" => ""
  | String c s' =>
      if String.eqb (JS.trimStart s) "" then "" else String c (trimEnd s')
  end.

Definition trim (s : string) : string := trimEnd (JS.trimStart s).

(** ToBoolean on a string. *)
Definition truthy (s : string) : bool := negb (String.eqb s "").

(** [Array.prototype.filter] with a callback that reads the index. *)
Fixpoint filterFrom {A : Type} (f : A -> nat -> bool) (i : nat) (l : list A) : list A :=
  match l with
  | [] => []
  | a :: l' => if f a i then a :: filterFrom f (S i) l' else filterFrom f (S i) l'
  end.

Definition filter {A : Type} (f : A -> nat -> bool) (l : list A) : list A :=
  filterFrom f 0 l.

(** The first character of a string is a decimal digit. *)
Definition headDigit (s : string) : bool :=
  match s with
  | String c _ => JS.isDigit c
  | "" => false
  end.

Definition headMinus (s : string) : bool :=
  match s with
  | String c _ => Ascii.eqb c "-"
  | "" => false
  end.

End JSLib.

(** ** Firestore helper: [loadCourses]

    The query snapshot is the input: the documents in query order, each
    with its document id and its data; [None] stands for a rejected
    [getDocs], which the helper catches.  In [{ id: docSnap.id, ...data }]
    an [id] field of the data overrides the document id. *)

Definition loadCourses (snapshot : option (list (string * CourseEntry)))
    : list CourseEntry :=
  match snapshot with
  | None => []
  | Some docs =>
      fold_left
        (fun courses docSnap =>
           let data := snd docSnap in
           (courses ++
              [ {| id := match id data with
                         | Some own => Some own
                         | None => Some (fst docSnap)
                         end;
                   course := course data; year := year data;
                   semester := semester data; goalGrade := goalGrade data;
                   entryType := entryType data; finalGrade := finalGrade data;
                   assignments := assignments data; credits := credits data |} ])%list)
        docs []
  end.

(** ** Component state: one field per [useState] cell *)

Inductive ViewMode : Type := thisSemester | allCourses.

Module State.

Record t : Type := {
  selectedYear : string;
  selectedSemester : string;
  totalCgpaVisible : bool;
  progressData : list CourseEntry;
  course : string;
  formYear : string;
  formSemester : string;
  goalGrade : string;
  entryType : EntryType;
  finalGrade : string;
  currentAssignmentWeight : JS.number;
  assignmentName : string;
  assignmentGrade : string;
  currentAssignments : list Assignment;
  isEditing : bool;
  editId : option string;
  viewMode : ViewMode
}.

Definition initial : t :=
  {| selectedYear := ""; selectedSemester := ""; totalCgpaVisible := true;
     progressData := []; course := ""; formYear := ""; formSemester := "";
     goalGrade := ""; entryType := final; finalGrade := "";
     currentAssignmentWeight := 0; assignmentName := ""; assignmentGrade := "";
     currentAssignments := []; isEditing := false; editId := None;
     viewMode := thisSemester |}.

End State.

(** What a handler asks of its collaborators, in order. *)
Inductive Effect : Type :=
| Alert (message : string)
| SaveCourse (courseEntry : CourseEntry)
| UpdateCourseEntry (docId : string) (courseEntry : CourseEntry)
| DeleteCourseEntry (docId : string)
| LoadCourses.

(** The continuation an asynchronous handler leaves pending while it
    awaits the store: what runs once the reload has resolved. *)
Inductive Pending : Type :=
| AfterUpdate
| AfterSave
| AfterDelete
| AfterMount.

(** ** Handlers and derived values

    A synchronous handler maps the state of the render it was created in
    to the state after its updates.  An asynchronous one reads that state
    when it is called, decides its requests then, and writes only after
    its awaits, to the state the component has by that time: [resume] is
    that last part, and [handleFormSubmit], [onDeleteClick] and [onMount]
    are the runs in which no other event is handled in between.  The
    value a reload resolves to is an input. *)

Module Handlers.

(** *** Derived on every render *)

Definition totalCgpa (st : State.t) : string :=
  App.computeAverageCGPA (State.progressData st).

Definition filteredEntries (st : State.t) : list CourseEntry :=
  if (JSLib.truthy (State.selectedYear st) && JSLib.truthy (State.selectedSemester st))%bool
  then List.filter
         (fun e => (String.eqb (year e) (State.selectedYear st)
                    && String.eqb (semester e) (State.selectedSemester st))%bool)
         (State.progressData st)
  else [].

Definition termCgpa (st : State.t) : string :=
  App.computeAverageCGPA (filteredEntries st).

Definition entriesToShow (st : State.t) : list CourseEntry :=
  match State.viewMode st with
  | thisSemester => filteredEntries st
  | allCourses => State.progressData st
  end.

(** *** Landing handlers *)

Definition handleYearSelect (year : string) (st : State.t) : State.t :=
  {| State.selectedYear := year;
     State.selectedSemester := "";
     State.totalCgpaVisible := State.totalCgpaVisible st;
     State.progressData := State.progressData st;
     State.course := State.course st;
     State.formYear := State.formYear st;
     State.formSemester := State.formSemester st;
     State.goalGrade := State.goalGrade st;
     State.entryType := State.entryType st;
     State.finalGrade := State.finalGrade st;
     State.currentAssignmentWeight := State.currentAssignmentWeight st;
     State.assignmentName := State.assignmentName st;
     State.assignmentGrade := State.assignmentGrade st;
     State.currentAssignments := State.currentAssignments st;
     State.isEditing := State.isEditing st;
     State.editId := State.editId st;
     State.viewMode := State.viewMode st |}.

Definition handleSemesterSelect (semester : string) (st : State.t) : State.t :=
  if negb (JSLib.truthy (State.selectedYear st)) then st
  else
    {| State.selectedYear := State.selectedYear st;
       State.selectedSemester := semester;
       State.totalCgpaVisible := State.totalCgpaVisible st;
       State.progressData := State.progressData st;
       State.course := State.course st;
       State.formYear := State.selectedYear st;
       State.formSemester := semester;
       State.goalGrade := State.goalGrade st;
       State.entryType := State.entryType st;
       State.finalGrade := State.finalGrade st;
       State.currentAssignmentWeight := State.currentAssignmentWeight st;
       State.assignmentName := State.assignmentName st;
       State.assignmentGrade := State.assignmentGrade st;
       State.currentAssignments := State.currentAssignments st;
       State.isEditing := State.isEditing st;
       State.editId := State.editId st;
       State.viewMode := State.viewMode st |}.

Definition toggleTotalCgpa (st : State.t) : State.t :=
  {| State.selectedYear := State.selectedYear st;
     State.selectedSemester := State.selectedSemester st;
     State.totalCgpaVisible := negb (State.totalCgpaVisible st);
     State.progressData := State.progressData st;
     State.course := State.course st;
     State.formYear := State.formYear st;
     State.formSemester := State.formSemester st;
     State.goalGrade := State.goalGrade st;
     State.entryType := State.entryType st;
     State.finalGrade := State.finalGrade st;
     State.currentAssignmentWeight := State.currentAssignmentWeight st;
     State.assignmentName := State.assignmentName st;
     State.assignmentGrade := State.assignmentGrade st;
     State.currentAssignments := State.currentAssignments st;
     State.isEditing := State.isEditing st;
     State.editId := State.editId st;
     State.viewMode := State.viewMode st |}.

(** *** Assignment handlers *)

(** The four cells the assignment handlers write. *)
Definition withAssignments (st : State.t) (currentAssignments : list Assignment)
    (assignmentName assignmentGrade : string) (currentAssignmentWeight : JS.number)
    : State.t :=
  {| State.selectedYear := State.selectedYear st;
     State.selectedSemester := State.selectedSemester st;
     State.totalCgpaVisible := State.totalCgpaVisible st;
     State.progressData := State.progressData st;
     State.course := State.course st;
     State.formYear := State.formYear st;
     State.formSemester := State.formSemester st;
     State.goalGrade := State.goalGrade st;
     State.entryType := State.entryType st;
     State.finalGrade := State.finalGrade st;
     State.currentAssignmentWeight := currentAssignmentWeight;
     State.assignmentName := assignmentName;
     State.assignmentGrade := assignmentGrade;
     State.currentAssignments := currentAssignments;
     State.isEditing := State.isEditing st;
     State.editId := State.editId st;
     State.viewMode := State.viewMode st |}.

Definition handleAddAssignment (st : State.t) : list Effect * State.t :=
  let weight := State.currentAssignmentWeight st in
  let gradeNum :=
    if String.eqb (JSLib.trim (State.assignmentGrade st)) "" then None
    else Some (JS.parseFloat (State.assignmentGrade st)) in
  if (String.eqb (JSLib.trim (State.assignmentName st)) "" || (weight <=? 0))%bool
  then ([Alert "Please enter a valid assignment name and weight."], st)
  else
    ([], withAssignments st
           (State.currentAssignments st
              ++ [ {| name := State.assignmentName st; grade := gradeNum;
                      weight := weight |} ])%list
           "" "" 0).

(** [index] is the position the list item was rendered at. *)
Definition handleRemoveAssignment (index : nat) (st : State.t) : State.t :=
  withAssignments st
    (JSLib.filter (fun _ i => negb (i =? index)%nat) (State.currentAssignments st))
    (State.assignmentName st) (State.assignmentGrade st)
    (State.currentAssignmentWeight st).

(** *** Form submission *)

Definition newEntry (st : State.t) : CourseEntry :=
  {| id := None;
     course := State.course st;
     year := State.formYear st;
     semester := State.formSemester st;
     goalGrade := State.goalGrade st;
     entryType := State.entryType st;
     finalGrade :=
       match State.entryType st with
       | final => Some (State.finalGrade st)
       | scale => None
       end;
     assignments :=
       match State.entryType st with
       | final => None
       | scale => Some (State.currentAssignments st)
       end;
     credits := Some 3 |}.

(** The state after the form fields are cleared, with the reloaded
    collection and the given editing cells. *)
Definition cleared (st : State.t) (courses : list CourseEntry)
    (isEditing : bool) (editId : option string) : State.t :=
  {| State.selectedYear := State.selectedYear st;
     State.selectedSemester := State.selectedSemester st;
     State.totalCgpaVisible := State.totalCgpaVisible st;
     State.progressData := courses;
     State.course := "";
     State.formYear := "";
     State.formSemester := "";
     State.goalGrade := "";
     State.entryType := State.entryType st;
     State.finalGrade := "";
     State.currentAssignmentWeight := 0;
     State.assignmentName := "";
     State.assignmentGrade := "";
     State.currentAssignments := [];
     State.isEditing := isEditing;
     State.editId := editId;
     State.viewMode := State.viewMode st |}.

(** [snapshot] is what the reload after the write reads.  The requests
    are decided from the state at the call; the state returned is that of
    the run in which nothing else is handled before the continuation. *)
Definition handleFormSubmit (snapshot : option (list (string * CourseEntry)))
    (st : State.t) : list Effect * State.t :=
  if (negb (JSLib.truthy (State.formYear st))
      || negb (JSLib.truthy (State.formSemester st)))%bool
  then ([Alert "Please select a year and semester first."], st)
  else
    let courses := loadCourses snapshot in
    match State.isEditing st, State.editId st with
    | true, Some editId =>
        if JSLib.truthy editId
        then ([UpdateCourseEntry editId (newEntry st); LoadCourses],
              cleared st courses false None)
        else ([SaveCourse (newEntry st); LoadCourses],
              cleared st courses (State.isEditing st) (State.editId st))
    | _, _ =>
        ([SaveCourse (newEntry st); LoadCourses],
         cleared st courses (State.isEditing st) (State.editId st))
    end.

(** *** Edit handlers *)

Definition handleEdit (id' : string) (st : State.t) : State.t :=
  match find (fun c => match id c with
                       | Some i => String.eqb i id'
                       | None => false
                       end) (State.progressData st) with
  | None => st
  | Some courseToEdit =>
      {| State.selectedYear := year courseToEdit;
         State.selectedSemester := semester courseToEdit;
         State.totalCgpaVisible := State.totalCgpaVisible st;
         State.progressData := State.progressData st;
         State.course := course courseToEdit;
         State.formYear := year courseToEdit;
         State.formSemester := semester courseToEdit;
         State.goalGrade := goalGrade courseToEdit;
         State.entryType := entryType courseToEdit;
         State.finalGrade :=
           match entryType courseToEdit with
           | final => JS.string_or (finalGrade courseToEdit) ""
           | scale => ""
           end;
         State.currentAssignmentWeight := State.currentAssignmentWeight st;
         State.assignmentName := State.assignmentName st;
         State.assignmentGrade := State.assignmentGrade st;
         State.currentAssignments :=
           match entryType courseToEdit with
           | final => []
           | scale => JS.array_or (assignments courseToEdit) []
           end;
         State.isEditing := true;
         State.editId := Some id';
         State.viewMode := State.viewMode st |}
  end.

Definition handleCancelEdit (st : State.t) : State.t :=
  cleared st (State.progressData st) false None.

(** *** The two inline button handlers of a table row *)

(** [entry.id && handleEdit(entry.id)]. *)
Definition onEditClick (entry : CourseEntry) (st : State.t) : State.t :=
  match id entry with
  | Some i => if JSLib.truthy i then handleEdit i st else st
  | None => st
  end.

Definition withProgressData (st : State.t) (courses : list CourseEntry) : State.t :=
  {| State.selectedYear := State.selectedYear st;
     State.selectedSemester := State.selectedSemester st;
     State.totalCgpaVisible := State.totalCgpaVisible st;
     State.progressData := courses;
     State.course := State.course st;
     State.formYear := State.formYear st;
     State.formSemester := State.formSemester st;
     State.goalGrade := State.goalGrade st;
     State.entryType := State.entryType st;
     State.finalGrade := State.finalGrade st;
     State.currentAssignmentWeight := State.currentAssignmentWeight st;
     State.assignmentName := State.assignmentName st;
     State.assignmentGrade := State.assignmentGrade st;
     State.currentAssignments := State.currentAssignments st;
     State.isEditing := State.isEditing st;
     State.editId := State.editId st;
     State.viewMode := State.viewMode st |}.

(** [confirmed] is the answer of [window.confirm]. *)
Definition onDeleteClick (confirmed : bool)
    (snapshot : option (list (string * CourseEntry))) (entry : CourseEntry)
    (st : State.t) : list Effect * State.t :=
  match id entry with
  | Some i =>
      if (confirmed && JSLib.truthy i)%bool
      then ([DeleteCourseEntry i; LoadCourses],
            withProgressData st (loadCourses snapshot))
      else ([], st)
  | None => ([], st)
  end.

(** The effect run on mount. *)
Definition onMount (snapshot : option (list (string * CourseEntry)))
    (st : State.t) : State.t :=
  withProgressData st (loadCourses snapshot).

(** *** The asynchronous handlers in two parts *)

(** The updates made after the awaits, on the state found then. *)
Definition resume (k : Pending) (snapshot : option (list (string * CourseEntry)))
    (st : State.t) : State.t :=
  let courses := loadCourses snapshot in
  match k with
  | AfterUpdate => cleared st courses false None
  | AfterSave => cleared st courses (State.isEditing st) (State.editId st)
  | AfterDelete | AfterMount => withProgressData st courses
  end.

(** What a call of [handleFormSubmit] leaves pending: nothing after the
    alert, else the continuation of the branch taken. *)
Definition submitPending (st : State.t) : option Pending :=
  if (negb (JSLib.truthy (State.formYear st))
      || negb (JSLib.truthy (State.formSemester st)))%bool
  then None
  else
    match State.isEditing st, State.editId st with
    | true, Some editId => if JSLib.truthy editId then Some AfterUpdate else Some AfterSave
    | _, _ => Some AfterSave
    end.

(** *** Derived values for the scale preview *)

Definition totalWeightEntered (st : State.t) : JS.number :=
  JS.reduce (fun sum a => sum + weight a) 0 (State.currentAssignments st).

Definition weightedSum (st : State.t) : JS.number :=
  JS.reduce
    (fun sum a => sum + (match grade a with Some g => g | None => 0 end) * weight a)
    0 (State.currentAssignments st).

Definition currentAverage (st : State.t) : JS.number :=
  if JS.gt (totalWeightEntered st) 0
  then weightedSum st / totalWeightEntered st else 0.

Definition computedLetter (st : State.t) : string :=
  percentageToLetter (currentAverage st).

Definition remainingWeight (st : State.t) : JS.number :=
  100 - totalWeightEntered st.

(** [{remain > 0 ? remain.toFixed(2) : 0}], as rendered text. *)
Definition remainingText (remain : JS.number) : string :=
  if JS.gt remain 0 then JS.toFixed 2 remain else "0".

(** *** One row of the course table *)

Definition rowAverage (entry : CourseEntry) : JS.number :=
  let assignments := JS.array_or (assignments entry) [] in
  let totalW := JS.reduce (fun sum a => sum + weight a) 0 assignments in
  let weightedSum :=
    JS.reduce
      (fun sum a => sum + (match grade a with Some g => g | None => 0 end) * weight a)
      0 assignments in
  if JS.gt totalW 0 then weightedSum / totalW else 0.

Definition computedGrade (entry : CourseEntry) : string :=
  JS.toFixed 2 (rowAverage entry) ++ "% ("
    ++ percentageToLetter (rowAverage entry) ++ ")".

(** The "Current / Final Grade" cell. *)
Definition gradeCell (entry : CourseEntry) : string :=
  match entryType entry with
  | final => match finalGrade entry with Some g => g | None => "" end
  | scale => computedGrade entry
  end.

Definition remain (entry : CourseEntry) : JS.number :=
  100 - JS.reduce (fun sum a => sum + weight a) 0
          (JS.array_or (assignments entry) []).

End Handlers.

(** The seven cells that an input's [onChange] or the view selector
    writes. *)
Definition withFields (st : State.t) (course formYear formSemester goalGrade : string)
    (entryType : EntryType) (finalGrade : string) (viewMode : ViewMode) : State.t :=
  {| State.selectedYear := State.selectedYear st;
     State.selectedSemester := State.selectedSemester st;
     State.totalCgpaVisible := State.totalCgpaVisible st;
     State.progressData := State.progressData st;
     State.course := course;
     State.formYear := formYear;
     State.formSemester := formSemester;
     State.goalGrade := goalGrade;
     State.entryType := entryType;
     State.finalGrade := finalGrade;
     State.currentAssignmentWeight := State.currentAssignmentWeight st;
     State.assignmentName := State.assignmentName st;
     State.assignmentGrade := State.assignmentGrade st;
     State.currentAssignments := State.currentAssignments st;
     State.isEditing := State.isEditing st;
     State.editId := State.editId st;
     State.viewMode := viewMode |}.

(** The events of the component.  A change event carries the value its
    setter receives (for the weight, the result of [Number(...)]).
    [Mount], [FormSubmit] and [DeleteClick] are the uninterrupted runs of
    the asynchronous handlers; [Resume] is a pending continuation running
    on its own, after any other events, with the snapshot its reload
    read. *)
Inductive Event : Type :=
| Mount (snapshot : option (list (string * CourseEntry)))
| YearSelect (year : string)
| SemesterSelect (semester : string)
| ToggleTotalCgpa
| AddAssignment
| RemoveAssignment (index : nat)
| FormSubmit (snapshot : option (list (string * CourseEntry)))
| EditClick (entry : CourseEntry)
| CancelEdit
| DeleteClick (confirmed : bool) (snapshot : option (list (string * CourseEntry)))
    (entry : CourseEntry)
| CourseChange (value : string)
| FormYearChange (value : string)
| FormSemesterChange (value : string)
| GoalGradeChange (value : string)
| EntryTypeChange (value : EntryType)
| FinalGradeChange (value : string)
| AssignmentWeightChange (value : JS.number)
| AssignmentNameChange (value : string)
| AssignmentGradeChange (value : string)
| ViewModeChange (value : ViewMode)
| Resume (k : Pending) (snapshot : option (list (string * CourseEntry))).

(** The effects an event requests and the state it leads to. *)
Definition step (ev : Event) (st : State.t) : list Effect * State.t :=
  match ev with
  | Mount snapshot => ([LoadCourses], Handlers.onMount snapshot st)
  | YearSelect y => ([], Handlers.handleYearSelect y st)
  | SemesterSelect s => ([], Handlers.handleSemesterSelect s st)
  | ToggleTotalCgpa => ([], Handlers.toggleTotalCgpa st)
  | AddAssignment => Handlers.handleAddAssignment st
  | RemoveAssignment i => ([], Handlers.handleRemoveAssignment i st)
  | FormSubmit snapshot => Handlers.handleFormSubmit snapshot st
  | EditClick entry => ([], Handlers.onEditClick entry st)
  | CancelEdit => ([], Handlers.handleCancelEdit st)
  | DeleteClick confirmed snapshot entry =>
      Handlers.onDeleteClick confirmed snapshot entry st
  | CourseChange v =>
      ([], withFields st v (State.formYear st) (State.formSemester st)
             (State.goalGrade st) (State.entryType st) (State.finalGrade st)
             (State.viewMode st))
  | FormYearChange v =>
      ([], withFields st (State.course st) v (State.formSemester st)
             (State.goalGrade st) (State.entryType st) (State.finalGrade st)
             (State.viewMode st))
  | FormSemesterChange v =>
      ([], withFields st (State.course st) (State.formYear st) v
             (State.goalGrade st) (State.entryType st) (State.finalGrade st)
             (State.viewMode st))
  | GoalGradeChange v =>
      ([], withFields st (State.course st) (State.formYear st) (State.formSemester st)
             v (State.entryType st) (State.finalGrade st) (State.viewMode st))
  | EntryTypeChange v =>
      ([], withFields st (State.course st) (State.formYear st) (State.formSemester st)
             (State.goalGrade st) v (State.finalGrade st) (State.viewMode st))
  | FinalGradeChange v =>
      ([], withFields st (State.course st) (State.formYear st) (State.formSemester st)
             (State.goalGrade st) (State.entryType st) v (State.viewMode st))
  | AssignmentWeightChange v =>
      ([], Handlers.withAssignments st (State.currentAssignments st)
             (State.assignmentName st) (State.assignmentGrade st) v)
  | AssignmentNameChange v =>
      ([], Handlers.withAssignments st (State.currentAssignments st)
             v (State.assignmentGrade st) (State.currentAssignmentWeight st))
  | AssignmentGradeChange v =>
      ([], Handlers.withAssignments st (State.currentAssignments st)
             (State.assignmentName st) v (State.currentAssignmentWeight st))
  | ViewModeChange v =>
      ([], withFields st (State.course st) (State.formYear st) (State.formSemester st)
             (State.goalGrade st) (State.entryType st) (State.finalGrade st) v)
  | Resume k snapshot => ([LoadCourses], Handlers.resume k snapshot st)
  end.

(** The states the component can be in: the initial one and those an
    event leads to.  A continuation may run at any later time, so every
    interleaving of the asynchronous handlers with other events is
    covered. *)
Inductive reachable : State.t -> Prop :=
| reachable_initial : reachable State.initial
| reachable_step ev st : reachable st -> reachable (snd (step ev st)).

(** The two editing cells agree: [isEditing] holds exactly when [editId]
    names a document. *)
Definition editingConsistent (st : State.t) : Prop :=
  match State.editId st with
  | Some docId => State.isEditing st = true /\ docId <> ""
  | None => State.isEditing st = false
  end.

(** An assignment the add form accepts. *)
Definition acceptedAssignment (a : Assignment) : Prop :=
  JSLib.trim (name a) <> "" /\ (weight a <=? 0) = false.


(** A document as [loadCourses] returns it. *)
Definition loaded (docSnap : string * CourseEntry) : CourseEntry :=
  let data := snd docSnap in
  {| id := match id data with
           | Some own => Some own
           | None => Some (fst docSnap)
           end;
     course := course data; year := year data; semester := semester data;
     goalGrade := goalGrade data; entryType := entryType data;
     finalGrade := finalGrade data; assignments := assignments data;
     credits := credits data |}.

(* ================================================================== *)
(** * The order on numbers *)
(* ================================================================== *)

Ltac cmp_cases :=
  repeat match goal with
  | |- context [PosDef.Pos.compare_cont Eq ?a ?b] =>
      change (PosDef.Pos.compare_cont Eq a b) with (Pos.compare a b) in *
  | H : context [PosDef.Pos.compare_cont Eq ?a ?b] |- _ =>
      change (PosDef.Pos.compare_cont Eq a b) with (Pos.compare a b) in *
  | |- context [Z.compare ?a ?b] => destruct (Z.compare_spec a b)
  | H : context [Z.compare ?a ?b] |- _ => destruct (Z.compare_spec a b)
  | |- context [Pos.compare ?a ?b] => destruct (Pos.compare_spec a b)
  | H : context [Pos.compare ?a ?b] |- _ => destruct (Pos.compare_spec a b)
  end.

Lemma SFcompare_trans a b c r1 r2 :
  SFcompare a b = Some r1 -> SFcompare b c = Some r2 ->
  r1 <> Gt -> r2 <> Gt ->
  SFcompare a c = Some (match r1 with Eq => r2 | _ => Lt end).
Proof.
  destruct a as [sa|sa| |sa ma ea], b as [sb|sb| |sb mb eb], c as [sc|sc| |sc mc ec];
    cbn [SFcompare];
    try destruct sa; try destruct sb; try destruct sc;
    intros H1 H2 N1 N2;
    try discriminate;
    injection H1 as <-; injection H2 as <-;
    try congruence; try reflexivity;
    repeat (cmp_cases; subst; cbn [CompOpp] in * );
    try congruence; try lia; try reflexivity.
Qed.

Lemma SFleb_inv a b :
  SFleb a b = true -> exists r, SFcompare a b = Some r /\ r <> Gt.
Proof.
  unfold SFleb. destruct (SFcompare a b) as [[]|]; try discriminate;
    intros _; eexists; split; try reflexivity; discriminate.
Qed.

Lemma SFltb_inv a b : SFltb a b = true -> SFcompare a b = Some Lt.
Proof.
  unfold SFltb. destruct (SFcompare a b) as [[]|]; try discriminate; reflexivity.
Qed.

Lemma leb_trans x y z :
  (x <=? y) = true -> (y <=? z) = true -> (x <=? z) = true.
Proof.
  rewrite !leb_spec. intros H1 H2.
  destruct (SFleb_inv _ _ H1) as (r1 & E1 & N1).
  destruct (SFleb_inv _ _ H2) as (r2 & E2 & N2).
  unfold SFleb. rewrite (SFcompare_trans _ _ _ _ _ E1 E2 N1 N2).
  destruct r1, r2; congruence.
Qed.

Lemma leb_ltb_trans x y z :
  (x <=? y) = true -> (y <? z) = true -> (x <? z) = true.
Proof.
  rewrite leb_spec, !ltb_spec. intros H1 H2.
  destruct (SFleb_inv _ _ H1) as (r1 & E1 & N1).
  apply SFltb_inv in H2.
  unfold SFltb. rewrite (SFcompare_trans _ _ _ _ _ E1 H2 N1 ltac:(discriminate)).
  destruct r1; congruence.
Qed.

Lemma ltb_leb_trans x y z :
  (x <? y) = true -> (y <=? z) = true -> (x <? z) = true.
Proof.
  rewrite leb_spec, !ltb_spec. intros H1 H2.
  apply SFltb_inv in H1.
  destruct (SFleb_inv _ _ H2) as (r2 & E2 & N2).
  unfold SFltb. rewrite (SFcompare_trans _ _ _ _ _ H1 E2 ltac:(discriminate) N2).
  reflexivity.
Qed.

Lemma ltb_leb x y : (x <? y) = true -> (x <=? y) = true.
Proof.
  rewrite leb_spec, ltb_spec. intros H. apply SFltb_inv in H.
  unfold SFleb. now rewrite H.
Qed.

Lemma ltb_irrefl x : (x <? x) = false.
Proof.
  rewrite ltb_spec. unfold SFltb.
  destruct (Prim2SF x) as [s|s| |s m e]; cbn [SFcompare]; try reflexivity;
    try (destruct s; reflexivity).
  destruct s; rewrite Z.compare_refl;
    change (PosDef.Pos.compare_cont Eq m m) with (Pos.compare m m);
    rewrite Pos.compare_refl; reflexivity.
Qed.

(** [x < y] excludes [y <= x]. *)
Lemma ltb_not_leb x y : (x <? y) = true -> (y <=? x) = false.
Proof.
  intros H. destruct (y <=? x) eqn:E; [|reflexivity].
  pose proof (ltb_leb_trans _ _ _ H E) as C.
  rewrite ltb_irrefl in C. discriminate.
Qed.

(** A term [0 * w] with [w] finite is a zero, and adding a zero to a
    number leaves it equal to itself. *)
Lemma finite_cases w :
  is_finite w = true ->
  (exists s, Prim2SF w = S754_zero s) \/ (exists s m e, Prim2SF w = S754_finite s m e).
Proof.
  unfold is_finite, is_nan, is_infinity.
  rewrite !FloatAxioms.eqb_spec, abs_spec.
  change (Prim2SF infinity) with (S754_infinity false).
  destruct (Prim2SF w) as [s|s| |s m e]; eauto; intros H;
    try destruct s; vm_compute in H; discriminate.
Qed.

Lemma SFeqb_refl_not_nan a : a <> S754_nan -> SFeqb a a = true.
Proof.
  unfold SFeqb. destruct a as [s|s| |s m e]; cbn [SFcompare]; try congruence;
    try (destruct s; reflexivity).
  intros _. destruct s; rewrite Z.compare_refl;
    change (PosDef.Pos.compare_cont Eq m m) with (Pos.compare m m);
    rewrite Pos.compare_refl; reflexivity.
Qed.

Lemma add_zero_term x w :
  is_finite w = true -> is_nan x = false -> (x + 0 * w =? x) = true.
Proof.
  intros Hw Hx. unfold is_nan in Hx.
  rewrite FloatAxioms.eqb_spec in Hx |- *.
  rewrite add_spec, mul_spec.
  change (Prim2SF 0) with (S754_zero false).
  assert (Nx : Prim2SF x <> S754_nan)
    by (intros E; rewrite E in Hx; discriminate).
  destruct (finite_cases w Hw) as [(s & ->) | (s & m & e & ->)];
    cbn [SF64mul SFmul xorb];
    destruct (Prim2SF x) as [sx|sx| |sx mx ex] eqn:Ex; try congruence;
    cbn [SF64add SFadd];
    try (destruct sx, s; reflexivity);
    try (apply SFeqb_refl_not_nan; discriminate).
Qed.

(* ================================================================== *)
(** * The grade converter *)
(* ================================================================== *)

Ltac ladder_cases p :=
  unfold percentageToLetter;
  repeat match goal with
  | |- context [JS.ge p ?c] => destruct (JS.ge p c) eqn:?
  end.

Lemma percentageToLetter_letters p : In (percentageToLetter p) Spec.letters.
Proof. ladder_cases p; cbn; tauto. Qed.

Lemma percentageToLetter_own p :
  exists x, JS.getOwn letterToNumeric (percentageToLetter p) = Some x
            /\ In x [0; 1; 2; 3; 4; 5; 6; 7; 8; 9; 10].
Proof. ladder_cases p; eexists; (split; [reflexivity | cbn; tauto]). Qed.

Lemma ge_mono p1 p2 c :
  (p1 <=? p2) = true -> JS.ge p1 c = true -> JS.ge p2 c = true.
Proof. unfold JS.ge. intros H1 H2. exact (leb_trans _ _ _ H2 H1). Qed.

(** C3: [percentageToLetter] is the inclusive-lower-bound threshold ladder
    read from the highest threshold down, defined on every number (NaN
    included, which reaches no threshold); it returns one of the eleven
    letters, takes the stated values at 90, 89.999, 50, 39.999, -5 and 150,
    sends every negative percentage to "F" and every percentage above 100
    to "A+". *)
Theorem C3_percentageToLetter_ladder :
  (forall p, percentageToLetter p = Spec.letterFor p) /\
  (forall p, In (percentageToLetter p) Spec.letters) /\
  percentageToLetter 90 = "A+" /\
  percentageToLetter 89.999 = "A" /\
  percentageToLetter 50 = "D" /\
  percentageToLetter 39.999 = "F" /\
  percentageToLetter (-5) = "F" /\
  percentageToLetter 150 = "A+" /\
  percentageToLetter nan = "F" /\
  (forall p, (p <? 0) = true -> percentageToLetter p = "F") /\
  (forall p, (100 <? p) = true -> percentageToLetter p = "A+").
Proof.
  repeat split; try reflexivity.
  - intros p. unfold Spec.letterFor, Spec.ladder. ladder_cases p; cbn [find fst];
      repeat match goal with H : JS.ge p _ = _ |- _ => rewrite H; clear H end;
      reflexivity.
  - apply percentageToLetter_letters.
  - intros p Hp.
    assert (T : forall c, (c <? 0) = false -> JS.ge p c = false).
    { intros c Hc. unfold JS.ge. destruct (c <=? p) eqn:E; [|reflexivity].
      rewrite (leb_ltb_trans _ _ _ E Hp) in Hc. discriminate. }
    unfold percentageToLetter. rewrite !T by reflexivity. reflexivity.
  - intros p Hp. unfold percentageToLetter.
    assert (E : JS.ge p 90 = true).
    { unfold JS.ge. apply ltb_leb.
      apply (leb_ltb_trans 90 100 p); [reflexivity | exact Hp]. }
    now rewrite E.
Qed.

Lemma C3_percentageToLetter_ladder_witness :
  percentageToLetter (-0.5) = "F" /\ percentageToLetter 100.5 = "A+".
Proof.
  destruct C3_percentageToLetter_ladder
    as (_ & _ & _ & _ & _ & _ & _ & _ & _ & Hneg & Hhigh).
  split; [apply Hneg | apply Hhigh]; reflexivity.
Defined.

(** C6: the grade-point value of a percentage is monotone in the
    percentage: [p1 <= p2] gives
    [letterToNumeric(percentageToLetter(p1)) <= letterToNumeric(percentageToLetter(p2))]. *)
Theorem C6_gradePoint_monotone (p1 p2 : JS.number) :
  (p1 <=? p2) = true ->
  (Spec.gradePoint p1 <=? Spec.gradePoint p2) = true.
Proof.
  intros H. pose proof (ge_mono p1 p2) as T.
  unfold Spec.gradePoint, percentageToLetter.
  repeat match goal with
  | |- context [JS.ge p2 ?c] => destruct (JS.ge p2 c) eqn:?
  end;
  repeat match goal with
  | |- context [JS.ge p1 ?c] =>
      let E := fresh "E" in
      destruct (JS.ge p1 c) eqn:E;
      [ try (apply (T c H) in E; congruence) | ]
  end;
  reflexivity.
Qed.

Lemma C6_gradePoint_monotone_witness :
  (40 <=? 90) = true /\ (Spec.gradePoint 40 <=? Spec.gradePoint 90) = true.
Proof.
  split; [reflexivity | apply (C6_gradePoint_monotone 40 90); reflexivity].
Defined.

(* ================================================================== *)
(** * The letter table *)
(* ================================================================== *)

Lemma letterToNumeric_values k x :
  JS.getOwn letterToNumeric k = Some x ->
  In x [0; 1; 2; 3; 4; 5; 6; 7; 8; 9; 10].
Proof.
  unfold letterToNumeric. cbn [JS.getOwn].
  repeat match goal with
  | |- context [String.eqb k ?s] => destruct (String.eqb k s)
  end; intros [= <-]; cbn; tauto.
Qed.

(** A key that is neither in the table nor a member of the prototype
    reads as [undefined], which [?? 0] replaces by 0. *)
Lemma lookup_default k :
  JS.getOwn letterToNumeric k = None ->
  JS.mem k JS.objectPrototypeNames = false ->
  JS.nullish (JS.get letterToNumeric k) 0 = JS.Own 0.
Proof. unfold JS.get. now intros -> ->. Qed.

Lemma lookup_range k :
  JS.mem k JS.objectPrototypeNames = false ->
  In (JS.nullish (JS.get letterToNumeric k) 0)
     (map JS.Own [0; 1; 2; 3; 4; 5; 6; 7; 8; 9; 10]).
Proof.
  intros Hk. unfold JS.get. rewrite Hk.
  destruct (JS.getOwn letterToNumeric k) as [x|] eqn:E; cbn [JS.nullish].
  - apply in_map. eapply letterToNumeric_values; eauto.
  - cbn; tauto.
Qed.

Lemma scale_lookup p :
  JS.nullish (JS.get letterToNumeric (percentageToLetter p)) 0
  = JS.Own (Spec.gradePoint p)
  /\ JS.get letterToNumeric (percentageToLetter p) = Some (JS.Own (Spec.gradePoint p)).
Proof.
  unfold Spec.gradePoint, JS.get.
  destruct (percentageToLetter_own p) as (x & -> & _). now cbn.
Qed.

(** C5: the table holds the thirteen stated values, and ["Z"] yields 0;
    but at a final grade of ["constructor"], a string that is not in the
    letter table, the lookup [letterToNumeric[...] ?? 0] does not yield 0:
    the read reaches [Object.prototype] and returns its member, so the
    fallback is not applied, and an average over such an entry is
    ["NaN"]. *)
Theorem C5_inherited_key_not_defaulted :
  map (fun k => JS.nullish (JS.get letterToNumeric k) 0)
      ["A+"; "A"; "A-"; "B+"; "B"; "C+"; "C"; "D+"; "D"; "E"; "F"; "ABS"; "EIN"]
  = map JS.Own [10; 9; 8; 7; 6; 5; 4; 3; 2; 1; 0; 0; 0] /\
  JS.getOwn letterToNumeric "constructor" = None /\
  JS.nullish (JS.get letterToNumeric "constructor") 0 = JS.Inherited "constructor" /\
  computeEntryNumeric (finalEntry "constructor" (Some 3)) <> JS.Own 0 /\
  computeAverageCGPA [finalEntry "constructor" (Some 3)] = "NaN" /\
  computeEntryNumeric (finalEntry "Z" (Some 3)) = JS.Own 0.
Proof.
  repeat split; try reflexivity. vm_compute. discriminate.
Qed.

(* ================================================================== *)
(** * The average aggregator *)
(* ================================================================== *)

Lemma reduce_Sigma {A : Type} (f : A -> JS.number) (l : list A) :
  JS.reduce (fun sum a => sum + f a) 0 l = Spec.Sigma (map f l).
Proof.
  unfold JS.reduce, Spec.Sigma.
  induction l as [|a l IH] using rev_ind; [reflexivity|].
  rewrite fold_left_app, map_app, rev_app_distr. cbn. now rewrite IH.
Qed.

Lemma Sigma_snoc (terms : list JS.number) (t : JS.number) :
  Spec.Sigma (terms ++ [t]) = Spec.Sigma terms + t.
Proof. unfold Spec.Sigma. now rewrite rev_app_distr. Qed.

Lemma computeEntryNumeric_scale entry :
  entryType entry = scale ->
  computeEntryNumeric entry
  = JS.nullish
      (JS.get letterToNumeric
         (percentageToLetter
            (Spec.avgPercentage (JS.array_or (assignments entry) [])))) 0.
Proof.
  intros H. unfold computeEntryNumeric. rewrite H.
  unfold Spec.avgPercentage, Spec.totalWeight, Spec.weightedSum.
  cbv zeta.
  rewrite (reduce_Sigma weight).
  rewrite (reduce_Sigma (fun a => Spec.gradeOrZero a * weight a)).
  reflexivity.
Qed.

(** C1: for a scale entry, [computeEntryNumeric] is the table entry of
    the letter of [weightedSum / totalWeight] (0 when [totalWeight > 0]
    fails), where [totalWeight] sums every weight and [weightedSum] sums
    [grade_or_zero * weight]: an ungraded assignment adds its weight to
    [totalWeight] and the term [0 * weight] to [weightedSum], which for a
    finite weight leaves the sum equal to what it was.  The assignments
    [{weight:50,grade:80},{weight:50,grade:null}] give 4000, 100, 40, "E"
    and the value 1. *)
Theorem C1_scale_entry_numeric :
  (forall entry, entryType entry = scale ->
     let l := JS.array_or (assignments entry) [] in
     computeEntryNumeric entry = JS.Own (Spec.gradePoint (Spec.avgPercentage l)))
  /\ (forall l a, Spec.totalWeight (l ++ [a]) = Spec.totalWeight l + weight a)
  /\ (forall l a, grade a = None ->
        Spec.weightedSum (l ++ [a]) = Spec.weightedSum l + 0 * weight a)
  /\ (forall l a, grade a = None -> is_finite (weight a) = true ->
        is_nan (Spec.weightedSum l) = false ->
        (Spec.weightedSum (l ++ [a]) =? Spec.weightedSum l) = true)
  /\ (Spec.weightedSum exampleAssignments = 4000
      /\ Spec.totalWeight exampleAssignments = 100
      /\ Spec.avgPercentage exampleAssignments = 40
      /\ percentageToLetter 40 = "E"
      /\ computeEntryNumeric (scaleEntry exampleAssignments) = JS.Own 1).
Proof.
  split; [|split; [|split; [|split]]].
  - intros entry H l. rewrite (computeEntryNumeric_scale entry H).
    apply scale_lookup.
  - intros l a. unfold Spec.totalWeight.
    rewrite map_app. cbn [map]. apply Sigma_snoc.
  - intros l a Hg. unfold Spec.weightedSum.
    rewrite map_app. cbn [map]. rewrite Sigma_snoc.
    unfold Spec.gradeOrZero at 2. now rewrite Hg.
  - intros l a Hg Hw Hn. unfold Spec.weightedSum in *.
    rewrite map_app. cbn [map]. rewrite Sigma_snoc.
    unfold Spec.gradeOrZero at 2. rewrite Hg. now apply add_zero_term.
  - repeat split; reflexivity.
Qed.

Lemma C1_scale_entry_numeric_witness :
  computeEntryNumeric (scaleEntry exampleAssignments)
  = JS.Own (Spec.gradePoint (Spec.avgPercentage exampleAssignments))
  /\ (Spec.weightedSum
        ([ {| name := "quiz"; grade := Some 90; weight := 20 |} ]
           ++ [ {| name := "exam"; grade := None; weight := 80 |} ])
      =? Spec.weightedSum [ {| name := "quiz"; grade := Some 90; weight := 20 |} ])
     = true.
Proof.
  destruct C1_scale_entry_numeric as (Hscale & _ & _ & Hzero & _).
  split.
  - apply (Hscale (scaleEntry exampleAssignments)). reflexivity.
  - apply Hzero; reflexivity.
Defined.

(** C10: in the scale branch the letter returned by [percentageToLetter]
    is always an own key of the letter table, so the read is never
    [undefined] and the [?? 0] fallback is never taken. *)
Theorem C10_scale_fallback_unreachable :
  (forall p, exists x, JS.getOwn letterToNumeric (percentageToLetter p) = Some x)
  /\ (forall entry, entryType entry = scale ->
        exists p x,
          computeEntryNumeric entry
          = JS.nullish (JS.get letterToNumeric (percentageToLetter p)) 0
          /\ JS.get letterToNumeric (percentageToLetter p) = Some (JS.Own x)
          /\ computeEntryNumeric entry = JS.Own x).
Proof.
  split.
  - intros p. destruct (percentageToLetter_own p) as (x & E & _). eauto.
  - intros entry H.
    exists (Spec.avgPercentage (JS.array_or (assignments entry) [])).
    eexists. rewrite (computeEntryNumeric_scale entry H).
    split; [reflexivity|].
    split; apply scale_lookup.
Qed.

Lemma C10_scale_fallback_unreachable_witness :
  exists p x,
    computeEntryNumeric (scaleEntry exampleAssignments)
    = JS.nullish (JS.get letterToNumeric (percentageToLetter p)) 0
    /\ JS.get letterToNumeric (percentageToLetter p) = Some (JS.Own x)
    /\ computeEntryNumeric (scaleEntry exampleAssignments) = JS.Own x.
Proof.
  apply (proj2 C10_scale_fallback_unreachable (scaleEntry exampleAssignments)).
  reflexivity.
Defined.

(** Outside the members of [Object.prototype], every entry evaluates to
    one of the eleven grade-point values. *)
Lemma computeEntryNumeric_range entry :
  (entryType entry = final ->
   JS.mem (JS.string_or (finalGrade entry) "F") JS.objectPrototypeNames = false) ->
  In (computeEntryNumeric entry) (map JS.Own [0; 1; 2; 3; 4; 5; 6; 7; 8; 9; 10]).
Proof.
  intros H. destruct (entryType entry) eqn:E.
  - unfold computeEntryNumeric. rewrite E. apply lookup_range. now apply H.
  - rewrite (computeEntryNumeric_scale entry E).
    destruct (scale_lookup (Spec.avgPercentage (JS.array_or (assignments entry) [])))
      as (-> & _).
    apply in_map. unfold Spec.gradePoint, JS.get.
    destruct (percentageToLetter_own
                (Spec.avgPercentage (JS.array_or (assignments entry) [])))
      as (x & -> & Hx).
    exact Hx.
Qed.

(** C9: for the final-grade entry whose [finalGrade] is
    ["constructor"], [computeEntryNumeric] returns the inherited member of
    [Object.prototype], which is none of the values 0 to 10, and its
    numeric conversion is NaN. *)
Theorem C9_inherited_member_out_of_range :
  computeEntryNumeric (finalEntry "constructor" None) = JS.Inherited "constructor"
  /\ ~ In (computeEntryNumeric (finalEntry "constructor" None))
          (map JS.Own [0; 1; 2; 3; 4; 5; 6; 7; 8; 9; 10])
  /\ is_nan (JS.toNumber (computeEntryNumeric (finalEntry "constructor" None))) = true.
Proof.
  split; [reflexivity|]. split; [|reflexivity].
  cbn. intros H.
  repeat match goal with H : _ \/ _ |- _ => destruct H as [H|H] end;
    try discriminate; exact H.
Qed.

(** C7: the functions declared inside [App] and the module-level
    functions of the same names return the same value on every entry and
    on every list of entries. *)
Theorem C7_duplicated_definitions_agree :
  (forall entry, App.computeEntryNumeric entry = computeEntryNumeric entry)
  /\ (forall entries, App.computeAverageCGPA entries = computeAverageCGPA entries).
Proof.
  assert (E : forall entry, App.computeEntryNumeric entry = computeEntryNumeric entry).
  { intros entry. unfold App.computeEntryNumeric, computeEntryNumeric.
    destruct (entryType entry); reflexivity. }
  split; [exact E|].
  intros entries. unfold App.computeAverageCGPA, computeAverageCGPA.
  destruct (List.length entries =? 0)%nat; reflexivity.
Qed.

(** C4: on the empty list [computeAverageCGPA] returns the sentinel
    ["N/A"], which is not a number when parsed, is not a two-decimal
    string and differs from the formatting of zero. *)
Theorem C4_empty_average_sentinel :
  computeAverageCGPA [] = "N/A"
  /\ App.computeAverageCGPA [] = "N/A"
  /\ is_nan (JS.parseFloat "N/A") = true
  /\ Spec.twoFractionDigits "N/A" = false
  /\ "N/A" <> JS.toFixed 2 0
  /\ "N/A" <> "0".
Proof.
  repeat split; try reflexivity; vm_compute; discriminate.
Qed.

(* ================================================================== *)
(** * Formatting the average *)
(* ================================================================== *)

Lemma number_or_creditsOf entry :
  JS.number_or (credits entry) 3 = Spec.creditsOf entry.
Proof.
  unfold JS.number_or, Spec.creditsOf, JS.truthy.
  destruct (credits entry) as [c|]; [|reflexivity].
  destruct (is_zero c || is_nan c)%bool; reflexivity.
Qed.

Lemma computeAverageCGPA_Sigma entries :
  entries <> [] ->
  computeAverageCGPA entries
  = JS.toFixed 2 (Spec.totalWeightedPoints entries / Spec.totalCredits entries).
Proof.
  intros Hne. unfold computeAverageCGPA.
  destruct entries as [|e0 entries']; [congruence|].
  cbn [List.length Nat.eqb].
  set (step := fun '(totalWeighted, totalCredits) entry => _).
  assert (E : forall l, fold_left step l (0, 0)
                        = (Spec.totalWeightedPoints l, Spec.totalCredits l)).
  { induction l as [|e l IH] using rev_ind; [reflexivity|].
    rewrite fold_left_app, IH. cbn [fold_left step].
    unfold Spec.totalWeightedPoints, Spec.totalCredits, Spec.Sigma.
    rewrite !map_app, !rev_app_distr. cbn.
    now rewrite number_or_creditsOf. }
  now rewrite E.
Qed.

Lemma allDigits_app a b :
  JS.allDigits (a ++ b) = (JS.allDigits a && JS.allDigits b)%bool.
Proof.
  induction a as [|c a IH]; cbn; [reflexivity|].
  now rewrite IH, andb_assoc.
Qed.

Lemma allDigits_zeros k : JS.allDigits (JS.zeros k) = true.
Proof. induction k; cbn; auto. Qed.

Lemma allDigits_uint d : JS.allDigits (NilEmpty.string_of_uint d) = true.
Proof. induction d; cbn; auto. Qed.

Lemma allDigits_digits n : JS.allDigits (JS.digits n) = true.
Proof. apply allDigits_uint. Qed.

Lemma length_zeros k : String.length (JS.zeros k) = k.
Proof. induction k; cbn; auto. Qed.

Lemma length_append a b :
  String.length (a ++ b) = (String.length a + String.length b)%nat.
Proof. induction a; cbn; auto. Qed.

Lemma substring_prefix_suffix j s :
  (j <= String.length s)%nat ->
  substring 0 j s ++ substring j (String.length s - j) s = s
  /\ String.length (substring 0 j s) = j
  /\ String.length (substring j (String.length s - j) s) = (String.length s - j)%nat.
Proof.
  revert j. induction s as [|c s IH]; intros [|j] H; cbn in *.
  - auto.
  - lia.
  - repeat split; f_equal.
    + destruct (IH 0%nat ltac:(lia)) as (E & _ & _). cbn in E.
      rewrite Nat.sub_0_r in E. destruct s; cbn in *; congruence.
    + destruct (IH 0%nat ltac:(lia)) as (_ & _ & E).
      rewrite Nat.sub_0_r in E. destruct s; cbn in *; congruence.
  - destruct (IH j ltac:(lia)) as (E1 & E2 & E3).
    repeat split; congruence.
Qed.

Lemma spanDigits_point a b :
  JS.allDigits a = true ->
  JS.spanDigits (a ++ String "." b) = (a, String "." b).
Proof.
  induction a as [|c a IH]; cbn; [reflexivity|].
  intros H. apply andb_prop in H as [Hc Ha]. now rewrite Hc, IH.
Qed.

Lemma digitsValue_digits n : JS.digitsValue (JS.digits n) = n.
Proof.
  unfold JS.digitsValue, JS.digits. rewrite NilEmpty.usu.
  apply DecimalN.Unsigned.of_to.
Qed.

Lemma digitsValue_zeros k s : JS.digitsValue (JS.zeros k ++ s) = JS.digitsValue s.
Proof.
  induction k as [|k IH]; [reflexivity|].
  unfold JS.digitsValue in *. cbn.
  destruct (NilEmpty.uint_of_string (JS.zeros k ++ s)) as [d|];
    destruct (NilEmpty.uint_of_string s) as [d'|]; cbn in *; auto.
Qed.

Lemma digit_not_minus c r :
  JS.isDigit c = true ->
  match String c r with
  | String "-" r' => (true, r')
  | _ => (false, String c r)
  end = (false, String c r).
Proof.
  destruct c as [[] [] [] [] [] [] [] []]; intros H; try reflexivity;
    vm_compute in H; discriminate.
Qed.

Lemma readFixed2_format s m :
  s = "" \/ s = "-" ->
  JS.allDigits m = true ->
  (3 <= String.length m)%nat ->
  Spec.readFixed2
    (s ++ substring 0 (String.length m - 2) m ++ "."
       ++ substring (String.length m - 2) 2 m)
  = Some (String.eqb s "-", JS.digitsValue m).
Proof.
  intros Hs Hm Hk.
  destruct (substring_prefix_suffix (String.length m - 2) m ltac:(lia))
    as (E & La & Lb).
  replace (String.length m - (String.length m - 2))%nat with 2%nat in * by lia.
  set (a := substring 0 (String.length m - 2) m) in *.
  set (b := substring (String.length m - 2) 2 m) in *.
  assert (Hab : JS.allDigits a = true /\ JS.allDigits b = true).
  { rewrite <- E, allDigits_app in Hm. now apply andb_prop in Hm. }
  destruct Hab as [Ha Hb].
  assert (Na : a <> "") by (intros Z; rewrite Z in La; cbn in La; lia).
  change ("." ++ b) with (String "." b).
  unfold Spec.readFixed2.
  assert (Body : (let '(ip, r) := JS.spanDigits (a ++ String "." b) in
                  match r with
                  | String "." fp =>
                      if (negb (String.eqb ip "") && JS.allDigits fp
                          && (String.length fp =? 2)%nat)%bool
                      then Some (String.eqb s "-", JS.digitsValue (ip ++ fp))
                      else None
                  | _ => None
                  end) = Some (String.eqb s "-", JS.digitsValue m)).
  { rewrite (spanDigits_point a b Ha). rewrite Hb, Lb, E.
    destruct (String.eqb_spec a ""); [contradiction|]. reflexivity. }
  destruct Hs as [-> | ->].
  - change ("" ++ a ++ String "." b) with (a ++ String "." b).
    destruct a as [|c a']; [contradiction|].
    cbn [append] in *.
    cbn [JS.allDigits] in Ha. apply andb_prop in Ha as [Hc _].
    rewrite (digit_not_minus c _ Hc). exact Body.
  - change ("-" ++ a ++ String "." b) with (String "-" (a ++ String "." b)).
    cbv iota beta. exact Body.
Qed.

Lemma toFixed2_format x r :
  JS.real x = Some r ->
  (Qabs r < JS.pow10 21)%Q ->
  Spec.readFixed2 (JS.toFixed 2 x)
  = Some (negb (Qle_bool (0 # 1) r), Spec.hundredths r).
Proof.
  intros Hr Hlt. unfold JS.toFixed. rewrite Hr.
  destruct (Qle_bool (JS.pow10 21) (Qabs r)) eqn:Big.
  { apply Qle_bool_iff in Big. exfalso. exact (Qlt_not_le _ _ Hlt Big). }
  change (Z.to_N (Qfloor (Qabs r * JS.pow10 (Z.of_nat 2) + (1 # 2))))
    with (Spec.hundredths r).
  cbv zeta.
  set (m0 := JS.digits (Spec.hundredths r)).
  set (m := if (String.length m0 <=? 2)%nat
            then JS.zeros (2 + 1 - String.length m0) ++ m0 else m0).
  change (2 =? 0)%nat with false. cbv iota.
  assert (Hm : JS.allDigits m = true).
  { unfold m. destruct (String.length m0 <=? 2)%nat.
    - rewrite allDigits_app, allDigits_zeros. apply allDigits_digits.
    - apply allDigits_digits. }
  assert (Hk : (3 <= String.length m)%nat).
  { unfold m. destruct (Nat.leb_spec (String.length m0) 2).
    - rewrite length_append, length_zeros. lia.
    - lia. }
  assert (Hv : JS.digitsValue m = Spec.hundredths r).
  { unfold m. destruct (String.length m0 <=? 2)%nat.
    - rewrite digitsValue_zeros. apply digitsValue_digits.
    - apply digitsValue_digits. }
  rewrite <- Hv.
  destruct (Qle_bool (0 # 1) r).
  - exact (readFixed2_format "" m (or_introl eq_refl) Hm Hk).
  - exact (readFixed2_format "-" m (or_intror eq_refl) Hm Hk).
Qed.

(** C2 (amended): for a non-empty list, [computeAverageCGPA] is
    [toFixed(2)] of the quotient of the sum of
    [computeEntryNumeric(entry) * credits(entry)] by the sum of
    [credits(entry)], where [credits(entry)] is 3 when the field is absent
    or falsy (0, -0, NaN); whenever that quotient is a finite number of
    magnitude below 10^21, the result is a decimal with exactly two
    fractional digits whose value is the quotient rounded to the nearest
    hundredth.  Two entries with credits 3 and values 9 and 6 give
    ["7.50"]. *)
Theorem C2_average_two_decimals :
  (forall entries, entries <> [] ->
     computeAverageCGPA entries
     = JS.toFixed 2 (Spec.totalWeightedPoints entries / Spec.totalCredits entries))
  /\ (forall entries r, entries <> [] ->
        JS.real (Spec.totalWeightedPoints entries / Spec.totalCredits entries) = Some r ->
        (Qabs r < JS.pow10 21)%Q ->
        Spec.readFixed2 (computeAverageCGPA entries)
        = Some (negb (Qle_bool (0 # 1) r), Spec.hundredths r))
  /\ (forall entry,
        credits entry = None \/ credits entry = Some 0
        \/ credits entry = Some (-0) \/ credits entry = Some nan ->
        Spec.creditsOf entry = 3)
  /\ (forall entry c, credits entry = Some c -> JS.truthy c = true ->
        Spec.creditsOf entry = c)
  /\ (computeEntryNumeric (finalEntry "A" (Some 3)) = JS.Own 9
      /\ computeEntryNumeric (finalEntry "B" (Some 3)) = JS.Own 6
      /\ computeAverageCGPA [finalEntry "A" (Some 3); finalEntry "B" (Some 3)] = "7.50").
Proof.
  split; [|split; [|split; [|split]]].
  - exact computeAverageCGPA_Sigma.
  - intros entries r Hne Hr Hlt.
    rewrite (computeAverageCGPA_Sigma entries Hne).
    now apply toFixed2_format.
  - intros entry H. unfold Spec.creditsOf.
    destruct H as [-> | [-> | [-> | ->]]]; reflexivity.
  - intros entry c Hc Ht. unfold Spec.creditsOf. rewrite Hc.
    unfold JS.truthy in Ht. apply negb_true_iff in Ht. now rewrite Ht.
  - repeat split; reflexivity.
Qed.

Lemma C2_average_two_decimals_witness :
  Spec.readFixed2
    (computeAverageCGPA [finalEntry "A" (Some 3); finalEntry "B" (Some 3)])
  = Some (false, 750%N)
  /\ Spec.creditsOf (finalEntry "A" (Some 0)) = 3
  /\ Spec.creditsOf (finalEntry "A" (Some 4)) = 4.
Proof.
  destruct C2_average_two_decimals as (_ & Hfmt & Hfalsy & Hkeep & _).
  split; [|split].
  - apply (Hfmt [finalEntry "A" (Some 3); finalEntry "B" (Some 3)] (15 # 2)%Q).
    + discriminate.
    + vm_compute. reflexivity.
    + vm_compute. reflexivity.
  - apply Hfalsy. right. left. reflexivity.
  - apply (Hkeep (finalEntry "A" (Some 4)) 4); reflexivity.
Defined.

(** C2 as stated fails: credits -3 and 3 sum to zero, the quotient is
    [0 / 0] and the result is ["NaN"], which has no fractional digits. *)
Lemma C2_zero_total_credits_counterexample :
  computeAverageCGPA [finalEntry "A" (Some (-3)); finalEntry "A" (Some 3)] = "NaN"
  /\ ~ (forall entries, entries <> [] ->
          Spec.twoFractionDigits (computeAverageCGPA entries) = true).
Proof.
  split; [reflexivity|].
  intros H.
  specialize (H [finalEntry "A" (Some (-3)); finalEntry "A" (Some 3)]
                ltac:(discriminate)).
  vm_compute in H. discriminate.
Qed.

(* ================================================================== *)
(** * The chart series *)
(* ================================================================== *)

Lemma hasSpace_app a b :
  Spec.hasSpace (a ++ b) = (Spec.hasSpace a || Spec.hasSpace b)%bool.
Proof. induction a; cbn; [reflexivity|]. now rewrite IHa, orb_assoc. Qed.

Lemma groupKeyOf_hasSpace entry : Spec.hasSpace (groupKeyOf entry) = true.
Proof.
  unfold groupKeyOf. rewrite !hasSpace_app. cbn. apply orb_true_r.
Qed.

Lemma mem_In k l : JS.mem k l = true <-> In k l.
Proof.
  unfold JS.mem. rewrite existsb_exists. split.
  - intros (x & Hx & E). apply String.eqb_eq in E. now subst.
  - intros H. exists k. split; [exact H | apply String.eqb_refl].
Qed.

Lemma mem_false k l : JS.mem k l = false <-> ~ In k l.
Proof.
  rewrite <- mem_In. destruct (JS.mem k l); split; congruence.
Qed.

Lemma hasSpace_not_inherited k :
  Spec.hasSpace k = true -> JS.mem k JS.objectPrototypeNames = false.
Proof.
  intros H. apply mem_false. intros Hin. cbn in Hin.
  repeat match goal with H : _ \/ _ |- _ => destruct H as [H|H] end;
    try (subst k; discriminate H); contradiction.
Qed.

Lemma hasSpace_not_allDigits k : Spec.hasSpace k = true -> JS.allDigits k = false.
Proof.
  induction k as [|c k IH]; cbn; [discriminate|].
  destruct (Ascii.eqb_spec c " ") as [-> | _]; cbn.
  - reflexivity.
  - intros H. rewrite (IH H). apply andb_false_r.
Qed.

Lemma hasSpace_not_index k : Spec.hasSpace k = true -> JS.arrayIndex k = None.
Proof.
  intros H. unfold JS.arrayIndex. destruct k as [|c k]; [reflexivity|].
  now rewrite (hasSpace_not_allDigits _ H).
Qed.

Lemma indexKeys_none ks :
  (forall k, In k ks -> JS.arrayIndex k = None) -> JS.indexKeys ks = [].
Proof.
  induction ks as [|k ks IH]; intros H; [reflexivity|]. cbn.
  rewrite (H k (or_introl eq_refl)). apply IH. intros; apply H; now right.
Qed.

Lemma filter_not_index ks :
  (forall k, In k ks -> JS.arrayIndex k = None) ->
  filter (fun k => negb (JS.isIndex k)) ks = ks.
Proof.
  induction ks as [|k ks IH]; intros H; [reflexivity|]. cbn.
  unfold JS.isIndex at 1. rewrite (H k (or_introl eq_refl)). cbn.
  f_equal. apply IH. intros; apply H; now right.
Qed.

Lemma keys_no_index {V : Type} (o : JS.object V) :
  (forall k, In k (map fst o) -> JS.arrayIndex k = None) ->
  JS.keys o = map fst o.
Proof.
  intros H. unfold JS.keys.
  now rewrite (indexKeys_none _ H), (filter_not_index _ H).
Qed.

(** Keys in first-encounter order. *)

Lemma encounterOrder_In k ks : In k (Spec.encounterOrder ks) <-> In k ks.
Proof.
  induction ks as [|k' ks IH]; cbn; [tauto|].
  rewrite filter_In, IH, negb_true_iff.
  destruct (String.eqb_spec k k') as [-> | N]; split; intros H; auto.
  - destruct H as [H | [H _]]; auto.
  - destruct H as [H | H]; [congruence | right; auto].
Qed.

Lemma encounterOrder_NoDup ks : NoDup (Spec.encounterOrder ks).
Proof.
  induction ks as [|k ks IH]; cbn; constructor.
  - rewrite filter_In, String.eqb_refl. intros [_ H]. discriminate.
  - now apply NoDup_filter.
Qed.

Lemma encounterOrder_snoc ks k :
  Spec.encounterOrder (ks ++ [k])
  = if JS.mem k ks then Spec.encounterOrder ks else (Spec.encounterOrder ks ++ [k])%list.
Proof.
  induction ks as [|k' ks IH]; [reflexivity|].
  cbn [app Spec.encounterOrder]. rewrite IH.
  unfold JS.mem in *. cbn [existsb].
  destruct (String.eqb_spec k k') as [-> | N]; cbn [orb].
  - destruct (existsb (String.eqb k') ks); [reflexivity|].
    rewrite filter_app. cbn. rewrite String.eqb_refl. cbn.
    now rewrite app_nil_r.
  - destruct (existsb (String.eqb k) ks); [reflexivity|].
    rewrite filter_app. cbn.
    destruct (String.eqb_spec k k'); [contradiction|]. reflexivity.
Qed.

(** Objects tabulated over a list of distinct keys. *)

Section Tabulate.
Context {V : Type}.
Implicit Types (f g : string -> V) (K : list string).

Lemma getOwn_tab f K k :
  JS.getOwn (Spec.tabulate f K) k = if JS.mem k K then Some (f k) else None.
Proof.
  induction K as [|k' K IH]; [reflexivity|].
  cbn. destruct (String.eqb_spec k k') as [-> | N]; cbn; auto.
Qed.

Lemma set_tab_new f K k v :
  ~ In k K -> JS.set (Spec.tabulate f K) k v = (Spec.tabulate f K ++ [(k, v)])%list.
Proof.
  induction K as [|k' K IH]; intros H; [reflexivity|].
  cbn. destruct (String.eqb_spec k k') as [-> | N].
  - exfalso. apply H. now left.
  - f_equal. apply IH. intros Hin. apply H. now right.
Qed.

Lemma set_snoc_last (o : JS.object V) k v v' :
  JS.getOwn o k = None -> JS.set (o ++ [(k, v)])%list k v' = (o ++ [(k, v')])%list.
Proof.
  induction o as [|[k' w] o IH]; cbn.
  - now rewrite String.eqb_refl.
  - destruct (String.eqb k k'); [discriminate|]. intros H. now rewrite IH.
Qed.

Lemma getOwn_snoc_last (o : JS.object V) k v :
  JS.getOwn o k = None -> JS.getOwn (o ++ [(k, v)])%list k = Some v.
Proof.
  induction o as [|[k' w] o IH]; cbn.
  - now rewrite String.eqb_refl.
  - destruct (String.eqb k k'); [discriminate|]. exact IH.
Qed.

Lemma tab_ext f g K :
  (forall k, In k K -> f k = g k) -> Spec.tabulate f K = Spec.tabulate g K.
Proof.
  intros H. apply map_ext_in. intros k Hk. now rewrite H.
Qed.

Lemma set_tab_old f g K k :
  NoDup K -> In k K ->
  (forall k', In k' K -> k' <> k -> g k' = f k') ->
  JS.set (Spec.tabulate f K) k (g k) = Spec.tabulate g K.
Proof.
  induction K as [|k' K IH]; intros ND Hin Hg; [contradiction|].
  inversion ND as [|? ? Hnot ND']; subst.
  cbn. destruct (String.eqb_spec k k') as [-> | N].
  - f_equal. apply tab_ext. intros k Hk. symmetry. apply Hg; [now right|].
    intros ->. contradiction.
  - rewrite (Hg k') by (auto; now left). f_equal.
    destruct Hin as [-> | Hin]; [contradiction|].
    apply IH; auto. intros; apply Hg; auto. now right.
Qed.
End Tabulate.

Lemma groupOf_snoc l e k :
  Spec.groupOf (l ++ [e]) k
  = (Spec.groupOf l k ++ (if String.eqb (groupKeyOf e) k then [e] else []))%list.
Proof. unfold Spec.groupOf. rewrite filter_app. reflexivity. Qed.

Lemma groupOf_absent l k :
  ~ In k (map groupKeyOf l) -> Spec.groupOf l k = [].
Proof.
  unfold Spec.groupOf. induction l as [|e l IH]; cbn; [reflexivity|].
  intros H. destruct (String.eqb_spec (groupKeyOf e) k) as [E | N].
  - exfalso. apply H. now left.
  - apply IH. intros Hin. apply H. now right.
Qed.

Lemma groupKeys_hasSpace l k : In k (Spec.groupKeys l) -> Spec.hasSpace k = true.
Proof.
  unfold Spec.groupKeys. rewrite encounterOrder_In, in_map_iff.
  intros (e & <- & _). apply groupKeyOf_hasSpace.
Qed.

(** The first loop builds the groups. *)
Lemma addToGroup_groupsOf l e :
  addToGroup (Some (Spec.groupsOf l)) e = Some (Spec.groupsOf (l ++ [e])).
Proof.
  unfold addToGroup, Spec.groupsOf, Spec.groupKeys.
  set (k0 := groupKeyOf e). set (K := Spec.encounterOrder (map groupKeyOf l)).
  rewrite map_app. cbn [map]. fold k0. rewrite encounterOrder_snoc. fold K.
  assert (P : JS.mem k0 JS.objectPrototypeNames = false)
    by apply hasSpace_not_inherited, groupKeyOf_hasSpace.
  assert (M : JS.mem k0 K = JS.mem k0 (map groupKeyOf l)).
  { destruct (JS.mem k0 (map groupKeyOf l)) eqn:E.
    - apply mem_In. apply encounterOrder_In. now apply mem_In.
    - apply mem_false. unfold K. rewrite encounterOrder_In. now apply mem_false. }
  assert (G : JS.get (Spec.tabulate (Spec.groupOf l) K) k0
              = if JS.mem k0 (map groupKeyOf l)
                then Some (JS.Own (Spec.groupOf l k0)) else None).
  { unfold JS.get. rewrite getOwn_tab, M, P.
    destruct (JS.mem k0 (map groupKeyOf l)); reflexivity. }
  rewrite G.
  destruct (JS.mem k0 (map groupKeyOf l)) eqn:E.
  - (* the group exists: the entry is pushed onto it *)
    rewrite G. f_equal.
    replace (Spec.groupOf l k0 ++ [e])%list with (Spec.groupOf (l ++ [e]) k0)
      by (rewrite groupOf_snoc; fold k0; now rewrite String.eqb_refl).
    apply (set_tab_old (Spec.groupOf l) (Spec.groupOf (l ++ [e]))).
    + apply encounterOrder_NoDup.
    + apply mem_In. now rewrite M.
    + intros k' _ N. rewrite groupOf_snoc. fold k0.
      destruct (String.eqb_spec k0 k'); [congruence|]. apply app_nil_r.
  - (* a new group is created last, then the entry is pushed *)
    assert (NK : ~ In k0 K) by (apply mem_false; now rewrite M).
    assert (O : JS.getOwn (Spec.tabulate (Spec.groupOf l) K) k0 = None).
    { rewrite getOwn_tab, M. reflexivity. }
    rewrite (set_tab_new _ _ _ _ NK).
    unfold JS.get.
    rewrite (getOwn_snoc_last _ _ _ O). rewrite (set_snoc_last _ _ _ _ O).
    f_equal. unfold Spec.tabulate. rewrite map_app. cbn [map app]. f_equal.
    + apply map_ext_in. intros k Hk. f_equal. rewrite groupOf_snoc.
      fold k0. destruct (String.eqb_spec k0 k) as [<- | _]; [contradiction|].
      now rewrite app_nil_r.
    + rewrite groupOf_snoc. fold k0. rewrite String.eqb_refl.
      rewrite groupOf_absent; [reflexivity|]. now apply mem_false.
Qed.

Lemma forEach_groupsOf l :
  fold_left addToGroup l (Some []) = Some (Spec.groupsOf l).
Proof.
  induction l as [|e l IH] using rev_ind; [reflexivity|].
  rewrite fold_left_app, IH. cbn [fold_left]. apply addToGroup_groupsOf.
Qed.

(** The second loop reads them in key order. *)
Lemma forEach_series cgpaOf (f : string -> list CourseEntry) K ks labels dataValues :
  (forall k, In k ks -> In k K) ->
  fold_left (addSeries cgpaOf (Spec.tabulate f K)) ks (Some (labels, dataValues))
  = Some (labels ++ ks,
          dataValues ++ map (fun k => JS.parseFloat (cgpaOf (f k))) ks)%list.
Proof.
  revert labels dataValues.
  induction ks as [|k ks IH]; intros labels dataValues H; cbn [fold_left map].
  - now rewrite !app_nil_r.
  - unfold addSeries at 2. unfold JS.get. rewrite getOwn_tab.
    assert (E : JS.mem k K = true) by (apply mem_In, H; now left).
    rewrite E. rewrite IH by (intros; apply H; now right).
    now rewrite <- !app_assoc.
Qed.

Lemma keys_groupsOf l : JS.keys (Spec.groupsOf l) = Spec.groupKeys l.
Proof.
  assert (E : map fst (Spec.groupsOf l) = Spec.groupKeys l).
  { unfold Spec.groupsOf, Spec.tabulate. rewrite map_map. cbn. apply map_id. }
  rewrite keys_no_index; [exact E|].
  intros k Hk. rewrite E in Hk.
  apply hasSpace_not_index. eapply groupKeys_hasSpace; eauto.
Qed.

Lemma buildChartData_series cgpaOf progressData totalCgpa :
  buildChartData cgpaOf progressData totalCgpa
  = Some (Spec.groupKeys progressData ++ ["Overall"],
          map (fun k => JS.parseFloat (cgpaOf (Spec.groupOf progressData k)))
              (Spec.groupKeys progressData)
          ++ [Spec.chartValue totalCgpa])%list.
Proof.
  unfold buildChartData. rewrite forEach_groupsOf, keys_groupsOf.
  unfold Spec.groupsOf. rewrite forEach_series by auto.
  cbn [app]. unfold Spec.chartValue.
  destruct (String.eqb totalCgpa "N/A"); reflexivity.
Qed.

(** C8: the chart labels are the ["<year> <semester>"] keys in the order
    in which each group is first met in the collection, followed by
    ["Overall"]; the value of a group is its CGPA parsed as a number and
    the last value is the overall CGPA parsed as a number, the sentinel
    ["N/A"] giving 0.  This holds for the construction inside [App] and for
    [ChartAnalytics] given the props [App] passes to it. *)
Theorem C8_chart_series (progressData : list CourseEntry) :
  let labels := (Spec.groupKeys progressData ++ ["Overall"])%list in
  let values :=
    (map (fun k => JS.parseFloat (computeAverageCGPA (Spec.groupOf progressData k)))
         (Spec.groupKeys progressData)
     ++ [Spec.chartValue (computeAverageCGPA progressData)])%list in
  App.chartData progressData = Some (labels, values)
  /\ ChartAnalytics progressData (App.computeAverageCGPA progressData)
     = Some (labels, values)
  /\ NoDup (Spec.groupKeys progressData)
  /\ (forall k, In k (Spec.groupKeys progressData) <->
                exists e, In e progressData /\ k = year e ++ " " ++ semester e)
  /\ Spec.chartValue "N/A" = 0
  /\ App.chartData [] = Some (["Overall"], [0])
  /\ App.chartData exampleProgress
     = Some (["2024 Fall"; "2023 Winter"; "Overall"], [6.5; 6; 6.33]).
Proof.
  cbv zeta. split; [|split; [|split; [|split; [|split; [|split]]]]].
  - unfold App.chartData.
    exact (buildChartData_series computeAverageCGPA progressData
             (computeAverageCGPA progressData)).
  - unfold ChartAnalytics.
    exact (buildChartData_series computeAverageCGPA progressData
             (computeAverageCGPA progressData)).
  - apply encounterOrder_NoDup.
  - intros k. unfold Spec.groupKeys. rewrite encounterOrder_In, in_map_iff.
    split; intros (e & H1 & H2); exists e; [split; auto | split; auto].
  - reflexivity.
  - reflexivity.
  - vm_compute. reflexivity.
Qed.
(* ================================================================== *)
(** * Further properties of the grade converter *)
(* ================================================================== *)

Lemma SFcompare_antisym a b :
  SFcompare b a = option_map CompOpp (SFcompare a b).
Proof.
  destruct a as [sa|sa| |sa ma ea], b as [sb|sb| |sb mb eb];
    cbn [SFcompare option_map];
    try destruct sa; try destruct sb; try reflexivity;
    repeat (cmp_cases; subst; cbn [CompOpp] in * );
    try reflexivity; try lia.
Qed.

(** On numbers that are not NaN the order is total. *)
Lemma leb_false_ltb x y :
  (x <=? y) = false -> (x =? x) = true -> (y =? y) = true -> (y <? x) = true.
Proof.
  rewrite leb_spec, ltb_spec, !FloatAxioms.eqb_spec.
  unfold SFleb, SFltb, SFeqb. rewrite (SFcompare_antisym (Prim2SF x) (Prim2SF y)).
  intros H Hx Hy.
  destruct (SFcompare (Prim2SF x) (Prim2SF y)) as [[]|] eqn:E;
    cbn [option_map CompOpp]; try discriminate; try reflexivity.
  exfalso.
  destruct (Prim2SF x) as [sx|sx| |sx mx ex], (Prim2SF y) as [sy|sy| |sy my ey];
    cbn [SFcompare] in *; discriminate.
Qed.

Lemma leb_true_not_nan x y : (x <=? y) = true -> (y =? y) = true.
Proof.
  rewrite leb_spec, FloatAxioms.eqb_spec. intros H.
  destruct (SFleb_inv _ _ H) as (r & E & _).
  apply SFeqb_refl_not_nan. intros N. rewrite N in E.
  destruct (Prim2SF x); discriminate.
Qed.

Lemma ge_false_lt p lo hi :
  JS.ge p lo = true -> JS.ge p hi = false -> (hi =? hi) = true ->
  (p <? hi) = true.
Proof.
  unfold JS.ge. intros Hlo Hhi Hn.
  apply leb_false_ltb; auto. eapply leb_true_not_nan; eauto.
Qed.

Lemma lt_ge_false p hi c :
  (p <? hi) = true -> (c <? hi) = false -> JS.ge p c = false.
Proof.
  unfold JS.ge. intros H Hc. destruct (c <=? p) eqn:E; [|reflexivity].
  rewrite (leb_ltb_trans _ _ _ E H) in Hc. discriminate.
Qed.

Ltac band_forward p :=
  unfold percentageToLetter;
  repeat match goal with
  | |- context [JS.ge p ?c] => destruct (JS.ge p c) eqn:?
  end;
  intros H; try discriminate H;
  repeat split; try assumption;
  match goal with
  | |- (p <? ?hi) = true =>
      match goal with
      | Hlo : JS.ge p ?lo = true |- _ =>
          apply (ge_false_lt p lo hi); [exact Hlo | assumption | reflexivity]
      end
  end.

Ltac band_backward p :=
  intros [Hlo Hhi]; unfold percentageToLetter;
  repeat match goal with
  | |- context [JS.ge p ?c] =>
      first [ rewrite (lt_ge_false p _ c Hhi eq_refl) | rewrite Hlo ]
  end; reflexivity.

(** X1: The letter of a percentage is decided by the band it lies in:
    [L] exactly when [lo <= p < hi], ["A+"] exactly from 90 up, and ["F"]
    exactly when 40 is not reached (below 40, or NaN). *)
Theorem percentageToLetter_bands (p : JS.number) :
  (percentageToLetter p = "A+" <-> JS.ge p 90 = true)
  /\ (percentageToLetter p = "A" <-> JS.ge p 85 = true /\ (p <? 90) = true)
  /\ (percentageToLetter p = "A-" <-> JS.ge p 80 = true /\ (p <? 85) = true)
  /\ (percentageToLetter p = "B+" <-> JS.ge p 75 = true /\ (p <? 80) = true)
  /\ (percentageToLetter p = "B" <-> JS.ge p 70 = true /\ (p <? 75) = true)
  /\ (percentageToLetter p = "C+" <-> JS.ge p 65 = true /\ (p <? 70) = true)
  /\ (percentageToLetter p = "C" <-> JS.ge p 60 = true /\ (p <? 65) = true)
  /\ (percentageToLetter p = "D+" <-> JS.ge p 55 = true /\ (p <? 60) = true)
  /\ (percentageToLetter p = "D" <-> JS.ge p 50 = true /\ (p <? 55) = true)
  /\ (percentageToLetter p = "E" <-> JS.ge p 40 = true /\ (p <? 50) = true)
  /\ (percentageToLetter p = "F" <-> JS.ge p 40 = false).
Proof.
  repeat match goal with |- _ /\ _ => split end.
  - split.
    + unfold percentageToLetter.
      destruct (JS.ge p 90); [reflexivity|].
      repeat match goal with
      | |- context [JS.ge p ?c] => destruct (JS.ge p c)
      end; discriminate.
    + intros H. unfold percentageToLetter. now rewrite H.
  - split; [band_forward p | band_backward p].
  - split; [band_forward p | band_backward p].
  - split; [band_forward p | band_backward p].
  - split; [band_forward p | band_backward p].
  - split; [band_forward p | band_backward p].
  - split; [band_forward p | band_backward p].
  - split; [band_forward p | band_backward p].
  - split; [band_forward p | band_backward p].
  - split; [band_forward p | band_backward p].
  - split.
    + unfold percentageToLetter.
      repeat match goal with
      | |- context [JS.ge p ?c] => destruct (JS.ge p c) eqn:?
      end; intros H; try discriminate H; reflexivity.
    + intros H. unfold percentageToLetter.
      assert (T : forall c, (40 <=? c) = true -> JS.ge p c = false).
      { intros c Hc. destruct (JS.ge p c) eqn:E; [|reflexivity].
        unfold JS.ge in *. rewrite (leb_trans _ _ _ Hc E) in H. discriminate. }
      rewrite !T by reflexivity. reflexivity.
Qed.

Lemma percentageToLetter_bands_witness :
  percentageToLetter 87.5 = "A" /\ percentageToLetter 12 = "F".
Proof.
  split.
  - apply (proj2 (proj1 (proj2 (percentageToLetter_bands 87.5)))).
    split; reflexivity.
  - apply (proj2 (proj2 (proj2 (proj2 (proj2 (proj2 (proj2 (proj2 (proj2 (proj2 (proj2
             (percentageToLetter_bands 12)))))))))))).
    reflexivity.
Defined.

(** X2: Two percentages earn the same grade points exactly when they map to
    the same letter: the eleven letters of the ladder have pairwise
    distinct table values. *)
Theorem gradePoint_eq_iff_letter (p1 p2 : JS.number) :
  Spec.gradePoint p1 = Spec.gradePoint p2
  <-> percentageToLetter p1 = percentageToLetter p2.
Proof.
  split.
  - unfold Spec.gradePoint.
    pose proof (percentageToLetter_letters p1) as H1.
    pose proof (percentageToLetter_letters p2) as H2.
    cbn in H1, H2.
    repeat match goal with H : _ \/ _ |- _ => destruct H as [H|H] end;
      try contradiction;
      rewrite <- H1, <- H2; intros E; try reflexivity;
      apply (f_equal Prim2SF) in E; vm_compute in E; discriminate E.
  - intros E. unfold Spec.gradePoint. now rewrite E.
Qed.

(* ================================================================== *)
(** * The shape of a formatted number *)
(* ================================================================== *)

Lemma digits_headDigit n : JSLib.headDigit (JS.digits n) = true.
Proof.
  unfold JS.digits.
  assert (N : N.to_uint n <> Decimal.Nil).
  { destruct n as [|p]; [discriminate|]. apply DecimalPos.Unsigned.to_uint_nonnil. }
  destruct (N.to_uint n); try reflexivity. contradiction.
Qed.

Lemma headDigit_app a b :
  JSLib.headDigit a = true -> JSLib.headDigit (a ++ b) = true.
Proof. destruct a; [discriminate | trivial]. Qed.

Lemma headDigit_substring s j :
  JSLib.headDigit s = true -> (1 <= j)%nat ->
  JSLib.headDigit (substring 0 j s) = true.
Proof. destruct s, j; cbn; auto; lia. Qed.

Lemma headDigit_not_minus s : JSLib.headDigit s = true -> JSLib.headMinus s = false.
Proof.
  destruct s as [|c s]; [reflexivity|]. cbn.
  destruct c as [[] [] [] [] [] [] [] []]; intros H; try reflexivity;
    vm_compute in H; discriminate.
Qed.

Lemma positiveToString_headDigit m e :
  JSLib.headDigit (JS.positiveToString m e) = true.
Proof.
  unfold JS.positiveToString. cbv zeta.
  match goal with |- context [JS.shortest ?v ?lo ?hi ?c ?fuel ?E] =>
    destruct (JS.shortest v lo hi c fuel E) as [s E'] end.
  set (ds := JS.digits (Z.to_N s)).
  pose proof (digits_headDigit (Z.to_N s)) as Hd. fold ds in Hd.
  set (k := Z.of_nat (String.length ds)).
  destruct ((k <=? k + E') && (k + E' <=? 21))%Z.
  { now apply headDigit_app. }
  destruct ((0 <? k + E') && (k + E' <=? 21))%Z eqn:C2.
  { apply headDigit_app, headDigit_substring; [exact Hd|].
    apply andb_prop in C2 as [C2 _]. apply Z.ltb_lt in C2. lia. }
  destruct ((-6 <? k + E') && (k + E' <=? 0))%Z.
  { reflexivity. }
  destruct (k =? 1)%Z.
  - now apply headDigit_app.
  - apply headDigit_app, headDigit_substring; [exact Hd | lia].
Qed.

Lemma real_value x r :
  JS.real x = Some r ->
  (exists s, Prim2SF x = S754_zero s /\ r = (0 # 1)%Q)
  \/ (exists s m e, Prim2SF x = S754_finite s m e
        /\ r = (let q := Qred ((Z.pos m # 1) * Qpower (2 # 1) e) in
                if s then Qopp q else q)).
Proof.
  unfold JS.real. destruct (Prim2SF x) as [s|s| |s m e]; try discriminate.
  - intros [= <-]. left. eauto.
  - intros [= <-]. right. eauto 6.
Qed.

Lemma numberToString_abs_headDigit x r :
  JS.real x = Some r -> JSLib.headDigit (JS.numberToString (abs x)) = true.
Proof.
  intros H. unfold JS.numberToString. rewrite abs_spec.
  destruct (real_value x r H) as [(s & -> & _) | (s & m & e & -> & _)];
    cbn [SFabs]; [reflexivity|].
  apply positiveToString_headDigit.
Qed.

(** A finite number formats as an optional minus sign followed by text
    that starts with a digit. *)
Lemma toFixed_finite f x r :
  JS.real x = Some r ->
  exists body,
    JS.toFixed f x = (if Qle_bool (0 # 1) r then "" else "-") ++ body
    /\ JSLib.headDigit body = true.
Proof.
  intros H. unfold JS.toFixed. rewrite H. cbv zeta.
  destruct (Qle_bool (JS.pow10 21) (Qabs r)).
  { eexists. split; [reflexivity|]. eapply numberToString_abs_headDigit; eauto. }
  set (n := Z.to_N _).
  set (m := if (String.length (JS.digits n) <=? f)%nat then _ else _).
  assert (Hm : JSLib.headDigit m = true).
  { unfold m. destruct (Nat.leb_spec (String.length (JS.digits n)) f).
    - replace (f + 1 - String.length (JS.digits n))%nat
        with (S (f - String.length (JS.digits n)))%nat by lia.
      reflexivity.
    - apply digits_headDigit. }
  assert (Hk : (f = 0 \/ f + 1 <= String.length m)%nat).
  { unfold m. destruct (Nat.leb_spec (String.length (JS.digits n)) f).
    - right. rewrite length_append, length_zeros. lia.
    - right. lia. }
  destruct (Nat.eqb_spec f 0).
  - eexists. split; [reflexivity | exact Hm].
  - eexists. split; [reflexivity|].
    apply headDigit_app, headDigit_substring; [exact Hm | lia].
Qed.

Lemma toFixed_not_finite f x :
  JS.real x = None ->
  JS.toFixed f x = "NaN" \/ JS.toFixed f x = "Infinity"
  \/ JS.toFixed f x = "-Infinity".
Proof.
  intros H. unfold JS.toFixed. rewrite H. unfold JS.numberToString.
  unfold JS.real in H.
  destruct (Prim2SF x) as [s|s| |s m e]; try discriminate; auto.
  destruct s; auto.
Qed.

Lemma toFixed_not_sentinel f x : JS.toFixed f x <> "N/A".
Proof.
  destruct (JS.real x) as [r|] eqn:H.
  - destruct (toFixed_finite f x r H) as (body & -> & Hb).
    destruct (Qle_bool (0 # 1) r); [|discriminate].
    destruct body as [|c body]; [discriminate|].
    cbn in *. intros [= -> _]. discriminate.
  - destruct (toFixed_not_finite f x H) as [-> | [-> | ->]]; discriminate.
Qed.

(** X3: The sentinel is returned for the empty list only: on a non-empty
    list the result is never ["N/A"], whatever the entries hold. *)
Theorem computeAverageCGPA_sentinel_iff_empty (entries : list CourseEntry) :
  (computeAverageCGPA entries = "N/A" <-> entries = [])
  /\ (App.computeAverageCGPA entries = "N/A" <-> entries = []).
Proof.
  assert (H : computeAverageCGPA entries = "N/A" <-> entries = []).
  { split.
    - intros H. destruct entries as [|e l]; [reflexivity|]. exfalso.
      rewrite computeAverageCGPA_Sigma in H by discriminate.
      exact (toFixed_not_sentinel _ _ H).
    - intros ->. reflexivity. }
  split; exact H.
Qed.

Lemma gt_zero_cases x :
  JS.gt x 0 = true ->
  Prim2SF x = S754_infinity false \/ exists m e, Prim2SF x = S754_finite false m e.
Proof.
  unfold JS.gt. rewrite ltb_spec. change (Prim2SF 0) with (S754_zero false).
  unfold SFltb. destruct (Prim2SF x) as [s|s| |s m e]; cbn [SFcompare];
    try discriminate; destruct s; try discriminate; eauto.
Qed.

Lemma positive_real m e :
  Qle_bool (0 # 1) (Qred ((Z.pos m # 1) * Qpower (2 # 1) e)) = true.
Proof.
  apply Qle_bool_iff. rewrite Qred_correct.
  apply Qmult_le_0_compat; [discriminate|].
  apply Qpower_0_le. discriminate.
Qed.

(** X6: The "Remaining Weight" text, in the form preview and in a table row,
    never shows a negative number: it is ["0"] unless the remainder is
    above zero, and then its text carries no minus sign. *)
Theorem remainingText_never_negative (remain : JS.number) :
  JSLib.headMinus (Handlers.remainingText remain) = false
  /\ (JS.gt remain 0 = false -> Handlers.remainingText remain = "0").
Proof.
  unfold Handlers.remainingText. split.
  - destruct (JS.gt remain 0) eqn:G; [|reflexivity].
    destruct (gt_zero_cases remain G) as [E | (m & e & E)].
    + unfold JS.toFixed, JS.real, JS.numberToString. now rewrite E.
    + assert (R : JS.real remain = Some (Qred ((Z.pos m # 1) * Qpower (2 # 1) e)))
        by (unfold JS.real; now rewrite E).
      destruct (toFixed_finite 2 remain _ R) as (body & -> & Hb).
      rewrite positive_real. now apply headDigit_not_minus.
  - now intros ->.
Qed.

Lemma remainingText_never_negative_witness :
  Handlers.remainingText (100 - 130) = "0".
Proof.
  apply (proj2 (remainingText_never_negative (100 - 130))). reflexivity.
Defined.

(** The parts of a two-decimal formatting. *)
Lemma toFixed2_parts x r :
  JS.real x = Some r ->
  (Qabs r < JS.pow10 21)%Q ->
  exists a b,
    JS.toFixed 2 x
    = (if Qle_bool (0 # 1) r then "" else "-") ++ a ++ String "." b
    /\ JSLib.headDigit a = true /\ JS.allDigits a = true
    /\ JS.allDigits b = true /\ String.length b = 2%nat
    /\ JS.digitsValue (a ++ b) = Spec.hundredths r.
Proof.
  intros Hr Hlt. unfold JS.toFixed. rewrite Hr.
  destruct (Qle_bool (JS.pow10 21) (Qabs r)) eqn:Big.
  { apply Qle_bool_iff in Big. exfalso. exact (Qlt_not_le _ _ Hlt Big). }
  change (Z.to_N (Qfloor (Qabs r * JS.pow10 (Z.of_nat 2) + (1 # 2))))
    with (Spec.hundredths r).
  cbv zeta.
  set (m0 := JS.digits (Spec.hundredths r)).
  set (m := if (String.length m0 <=? 2)%nat
            then JS.zeros (2 + 1 - String.length m0) ++ m0 else m0).
  change (2 =? 0)%nat with false. cbv iota.
  assert (Hm : JS.allDigits m = true).
  { unfold m. destruct (String.length m0 <=? 2)%nat.
    - rewrite allDigits_app, allDigits_zeros. apply allDigits_digits.
    - apply allDigits_digits. }
  assert (Hk : (3 <= String.length m)%nat).
  { unfold m. destruct (Nat.leb_spec (String.length m0) 2).
    - rewrite length_append, length_zeros. lia.
    - lia. }
  assert (Hh : JSLib.headDigit m = true).
  { unfold m. destruct (Nat.leb_spec (String.length m0) 2).
    - replace (2 + 1 - String.length m0)%nat
        with (S (2 - String.length m0))%nat by lia.
      reflexivity.
    - apply digits_headDigit. }
  assert (Hv : JS.digitsValue m = Spec.hundredths r).
  { unfold m. destruct (String.length m0 <=? 2)%nat.
    - rewrite digitsValue_zeros. apply digitsValue_digits.
    - apply digitsValue_digits. }
  destruct (substring_prefix_suffix (String.length m - 2) m ltac:(lia))
    as (E & La & Lb).
  replace (String.length m - (String.length m - 2))%nat with 2%nat in * by lia.
  exists (substring 0 (String.length m - 2) m), (substring (String.length m - 2) 2 m).
  rewrite <- E, allDigits_app in Hm. apply andb_prop in Hm as [Ha Hb].
  rewrite E. repeat split; auto.
  apply headDigit_substring; [exact Hh | lia].
Qed.

Lemma spanDigits_all b : JS.allDigits b = true -> JS.spanDigits b = (b, "").
Proof.
  induction b as [|c b IH]; cbn; [reflexivity|].
  intros H. apply andb_prop in H as [Hc Hb]. now rewrite Hc, IH.
Qed.

(** Parsing text that starts, after an optional minus sign, with a
    digit: the sign is taken, then the integer, fraction and exponent
    parts are read. *)
Lemma parseFloat_digit (neg : bool) c rest :
  JS.isDigit c = true ->
  JS.parseFloat ((if neg then "-" else "") ++ String c rest)
  = let '(ip, r1) := JS.spanDigits (String c rest) in
    let '(fp, r2) :=
      match r1 with
      | String "." r => JS.spanDigits r
      | _ => ("", r1)
      end in
    if (String.eqb ip "" && String.eqb fp "")%bool then nan
    else JS.ofDecimal neg (JS.digitsValue (ip ++ fp))
                      (JS.exponentPart r2 - Z.of_nat (String.length fp)).
Proof.
  destruct c as [[] [] [] [] [] [] [] []]; intros H;
    try (vm_compute in H; discriminate H);
    destruct neg; reflexivity.
Qed.

Lemma parseFloat_two_decimals (neg : bool) a b :
  JSLib.headDigit a = true -> JS.allDigits a = true ->
  JS.allDigits b = true -> String.length b = 2%nat ->
  JS.parseFloat ((if neg then "-" else "") ++ a ++ String "." b)
  = JS.ofDecimal neg (JS.digitsValue (a ++ b)) (-2).
Proof.
  intros Hh Ha Hb Lb.
  destruct a as [|c a']; [discriminate|].
  change (String c a' ++ String "." b) with (String c (a' ++ String "." b)).
  rewrite (parseFloat_digit neg c _ Hh).
  change (String c (a' ++ String "." b)) with (String c a' ++ String "." b).
  rewrite (spanDigits_point _ b Ha), (spanDigits_all b Hb), Lb.
  reflexivity.
Qed.

(** X5: Parsing a formatted average gives back the number its text denotes:
    for a non-empty list whose quotient is finite and below 10^21 in
    magnitude, [parseFloat] of the CGPA string is the number nearest to
    the quotient's hundredths divided by 100, with the quotient's sign. *)
Theorem parseFloat_computeAverageCGPA (entries : list CourseEntry) (r : Q) :
  entries <> [] ->
  JS.real (Spec.totalWeightedPoints entries / Spec.totalCredits entries) = Some r ->
  (Qabs r < JS.pow10 21)%Q ->
  JS.parseFloat (computeAverageCGPA entries)
  = JS.ofDecimal (negb (Qle_bool (0 # 1) r)) (Spec.hundredths r) (-2).
Proof.
  intros Hne Hr Hlt. rewrite (computeAverageCGPA_Sigma entries Hne).
  destruct (toFixed2_parts _ r Hr Hlt) as (a & b & -> & Hh & Ha & Hb & Lb & Hv).
  rewrite <- Hv.
  destruct (Qle_bool (0 # 1) r); cbn [negb].
  - exact (parseFloat_two_decimals false a b Hh Ha Hb Lb).
  - exact (parseFloat_two_decimals true a b Hh Ha Hb Lb).
Qed.

Lemma parseFloat_computeAverageCGPA_witness :
  JS.parseFloat (computeAverageCGPA [finalEntry "A" (Some 3); finalEntry "B" (Some 3)])
  = JS.ofDecimal false 750 (-2).
Proof.
  apply (parseFloat_computeAverageCGPA
           [finalEntry "A" (Some 3); finalEntry "B" (Some 3)] (15 # 2)%Q).
  - discriminate.
  - vm_compute. reflexivity.
  - vm_compute. reflexivity.
Defined.

(** X4: The CGPA of a single course is its grade point: with credits 3 (or
    none recorded) and a grade-point value among 0..10, the average is
    that value with two decimals. *)
Theorem computeAverageCGPA_single (entry : CourseEntry) (x : JS.number) :
  computeEntryNumeric entry = JS.Own x ->
  In x [0; 1; 2; 3; 4; 5; 6; 7; 8; 9; 10] ->
  credits entry = None \/ credits entry = Some 3 ->
  computeAverageCGPA [entry] = JS.toFixed 2 x.
Proof.
  intros Hx Hin Hc. unfold computeAverageCGPA. cbn [List.length Nat.eqb fold_left].
  rewrite Hx. cbn [JS.toNumber].
  assert (C : JS.number_or (credits entry) 3 = 3)
    by (destruct Hc as [-> | ->]; reflexivity).
  rewrite C. cbn in Hin.
  repeat match goal with H : _ \/ _ |- _ => destruct H as [H|H] end;
    try contradiction; subst x; reflexivity.
Qed.

Lemma computeAverageCGPA_single_witness :
  computeAverageCGPA [finalEntry "B+" None] = JS.toFixed 2 7.
Proof.
  apply (computeAverageCGPA_single (finalEntry "B+" None) 7).
  - reflexivity.
  - cbn. tauto.
  - left. reflexivity.
Defined.

(* ================================================================== *)
(** * Groups and terms *)
(* ================================================================== *)

Lemma groupOf_cons e l k :
  Spec.groupOf (e :: l) k
  = if String.eqb (groupKeyOf e) k then e :: Spec.groupOf l k else Spec.groupOf l k.
Proof. reflexivity. Qed.

Lemma concat_groups_cons e l K :
  NoDup K -> In (groupKeyOf e) K ->
  Permutation (List.concat (map (Spec.groupOf (e :: l)) K))
              (e :: List.concat (map (Spec.groupOf l) K)).
Proof.
  induction K as [|k K IH]; intros ND Hin; [contradiction|].
  inversion ND as [|? ? Hnot ND']; subst.
  cbn [map List.concat]. rewrite groupOf_cons.
  destruct (String.eqb_spec (groupKeyOf e) k) as [E | N].
  - subst k. cbn [app].
    replace (map (Spec.groupOf (e :: l)) K) with (map (Spec.groupOf l) K);
      [reflexivity|].
    apply map_ext_in. intros k' Hk'. rewrite groupOf_cons.
    destruct (String.eqb_spec (groupKeyOf e) k'); [congruence | reflexivity].
  - destruct Hin as [-> | Hin]; [contradiction|].
    rewrite (IH ND' Hin). symmetry. apply Permutation_middle.
Qed.

Lemma concat_groups_perm l K :
  NoDup K -> (forall e, In e l -> In (groupKeyOf e) K) ->
  Permutation (List.concat (map (Spec.groupOf l) K)) l.
Proof.
  intros ND. induction l as [|e l IH]; intros H.
  - replace (List.concat (map (Spec.groupOf []) K)) with (@nil CourseEntry);
      [constructor|].
    clear. induction K; cbn; auto.
  - rewrite concat_groups_cons; auto.
    + constructor. apply IH. intros; apply H; now right.
    + apply H. now left.
Qed.

(** X7: Grouping loses and duplicates nothing: the first loop of the chart
    construction never throws, its groups have distinct keys, none is
    empty, each holds entries of its own key only, and together they are
    a rearrangement of the whole collection. *)
Theorem semesterGroups_partition (progressData : list CourseEntry) :
  exists semesterGroups,
    fold_left addToGroup progressData (Some []) = Some semesterGroups
    /\ Permutation (List.concat (map snd semesterGroups)) progressData
    /\ NoDup (map fst semesterGroups)
    /\ (forall k arr, In (k, arr) semesterGroups ->
          arr <> [] /\ forall e, In e arr -> groupKeyOf e = k).
Proof.
  exists (Spec.groupsOf progressData).
  split; [apply forEach_groupsOf|].
  unfold Spec.groupsOf, Spec.tabulate. rewrite !map_map. cbn [fst snd].
  rewrite map_id.
  split; [|split].
  - apply concat_groups_perm; [apply encounterOrder_NoDup|].
    intros e He. apply encounterOrder_In, in_map, He.
  - apply encounterOrder_NoDup.
  - intros k arr Hin. apply in_map_iff in Hin as (k' & [= <- <-] & Hk).
    split.
    + apply encounterOrder_In, in_map_iff in Hk as (e & Ek & He).
      intros Z.
      assert (Hm : In e (Spec.groupOf progressData k')).
      { apply filter_In. split; [exact He|]. rewrite Ek. apply String.eqb_refl. }
      rewrite Z in Hm. contradiction.
    + intros e He. apply filter_In in He as [_ He].
      now apply String.eqb_eq.
Qed.

(** A year without a space and a semester are recovered from the key. *)
Lemma key_injective y1 s1 y2 s2 :
  Spec.hasSpace y1 = false -> Spec.hasSpace y2 = false ->
  y1 ++ " " ++ s1 = y2 ++ " " ++ s2 -> y1 = y2 /\ s1 = s2.
Proof.
  revert y2. induction y1 as [|c y1 IH]; intros [|c' y2] H1 H2 E; cbn in *.
  - injection E as E. auto.
  - injection E as <- _. discriminate H2.
  - injection E as -> _. discriminate H1.
  - injection E as <- E.
    apply orb_false_iff in H1 as [_ H1]. apply orb_false_iff in H2 as [_ H2].
    destruct (IH y2 H1 H2 E) as [-> ->]. auto.
Qed.

Lemma In_combine_prefix {A B : Type} (f : A -> B) k K L V :
  In k K -> In (k, f k) (combine (K ++ L) (map f K ++ V)).
Proof.
  induction K as [|k' K IH]; [contradiction|].
  intros [-> | H]; cbn; auto.
Qed.

(** X8: The term filter of the dashboard selects the chart's group: when the
    years hold no space, the entries listed for the selected year and
    semester are exactly the chart group of the key
    ["<year> <semester>"], so, if there are any, the bar with that label
    shows the term CGPA of the dashboard, parsed. *)
Theorem term_filter_is_chart_group (st : State.t) :
  JSLib.truthy (State.selectedYear st) = true ->
  JSLib.truthy (State.selectedSemester st) = true ->
  Spec.hasSpace (State.selectedYear st) = false ->
  (forall e, In e (State.progressData st) -> Spec.hasSpace (year e) = false) ->
  let k := State.selectedYear st ++ " " ++ State.selectedSemester st in
  Handlers.filteredEntries st = Spec.groupOf (State.progressData st) k
  /\ (Handlers.filteredEntries st <> [] ->
      exists labels values,
        App.chartData (State.progressData st) = Some (labels, values)
        /\ In (k, JS.parseFloat (Handlers.termCgpa st)) (combine labels values)).
Proof.
  intros Hy Hs Hsp Hall k.
  assert (F : Handlers.filteredEntries st = Spec.groupOf (State.progressData st) k).
  { unfold Handlers.filteredEntries, Spec.groupOf. rewrite Hy, Hs. cbn [andb].
    apply filter_ext_in. intros e He.
    destruct (String.eqb_spec (groupKeyOf e) k) as [E | N].
    - destruct (key_injective _ _ _ _ (Hall e He) Hsp E) as [-> ->].
      now rewrite !String.eqb_refl.
    - destruct (String.eqb_spec (year e) (State.selectedYear st)) as [Ey|]; [|reflexivity].
      destruct (String.eqb_spec (semester e) (State.selectedSemester st)) as [Es|];
        [|reflexivity].
      exfalso. apply N. unfold groupKeyOf, k. now rewrite Ey, Es. }
  split; [exact F|].
  intros Hne. do 2 eexists. split.
  - unfold App.chartData. apply buildChartData_series.
  - unfold Handlers.termCgpa. rewrite F.
    apply (In_combine_prefix
             (fun k => JS.parseFloat
                         (App.computeAverageCGPA (Spec.groupOf (State.progressData st) k)))).
    rewrite F in Hne.
    destruct (Spec.groupOf (State.progressData st) k) as [|e g] eqn:G; [congruence|].
    assert (He : In e (Spec.groupOf (State.progressData st) k))
      by (rewrite G; now left).
    apply filter_In in He as [He Ek]. apply String.eqb_eq in Ek.
    unfold Spec.groupKeys. apply encounterOrder_In. rewrite <- Ek.
    now apply in_map.
Qed.

Lemma term_filter_is_chart_group_witness :
  let st := Handlers.handleSemesterSelect "Fall"
              (Handlers.handleYearSelect "2024"
                 (Handlers.withProgressData State.initial exampleProgress)) in
  Handlers.filteredEntries st = Spec.groupOf exampleProgress "2024 Fall".
Proof.
  cbv zeta.
  apply (term_filter_is_chart_group
           (Handlers.handleSemesterSelect "Fall"
              (Handlers.handleYearSelect "2024"
                 (Handlers.withProgressData State.initial exampleProgress)))).
  - reflexivity.
  - reflexivity.
  - reflexivity.
  - intros e [<- | [<- | [<- | []]]]; reflexivity.
Defined.

(* ================================================================== *)
(** * The assignment list of the form *)
(* ================================================================== *)

Lemma filterFrom_In {A : Type} (f : A -> nat -> bool) s l a :
  In a (JSLib.filterFrom f s l) -> In a l.
Proof.
  revert s. induction l as [|b l IH]; intros s; cbn; [tauto|].
  destruct (f b s); cbn; intros H.
  - destruct H as [-> | H]; eauto.
  - eauto.
Qed.

Lemma filterFrom_keep {A : Type} index s (l : list A) :
  (index < s)%nat ->
  JSLib.filterFrom (fun _ i => negb (i =? index)%nat) s l = l.
Proof.
  revert s. induction l as [|a l IH]; intros s H; cbn; [reflexivity|].
  destruct (Nat.eqb_spec s index); [lia|]. cbn. f_equal. apply IH. lia.
Qed.

Lemma filterFrom_remove {A : Type} j s (l : list A) :
  JSLib.filterFrom (fun _ i => negb (i =? s + j)%nat) s l
  = (firstn j l ++ skipn (S j) l)%list.
Proof.
  revert j s. induction l as [|a l IH]; intros j s.
  - now destruct j.
  - cbn [JSLib.filterFrom]. destruct j as [|j].
    + rewrite Nat.add_0_r, Nat.eqb_refl. cbn. apply filterFrom_keep. lia.
    + destruct (Nat.eqb_spec s (s + S j)); [lia|]. cbn [negb firstn skipn app].
      f_equal. replace (s + S j)%nat with (S s + j)%nat by lia. apply IH.
Qed.

(** X9: Removing the item rendered at [index] deletes exactly that position
    and keeps the order of the rest; an index past the end changes
    nothing; and removing the last position right after an accepted add
    gives back the list as it was. *)
Theorem handleRemoveAssignment_position (index : nat) (st : State.t) :
  let l := State.currentAssignments st in
  State.currentAssignments (Handlers.handleRemoveAssignment index st)
  = (firstn index l ++ skipn (S index) l)%list
  /\ ((List.length l <= index)%nat ->
      State.currentAssignments (Handlers.handleRemoveAssignment index st) = l)
  /\ ((index < List.length l)%nat ->
      S (List.length (State.currentAssignments (Handlers.handleRemoveAssignment index st)))
      = List.length l)
  /\ (fst (Handlers.handleAddAssignment st) = [] ->
      State.currentAssignments
        (Handlers.handleRemoveAssignment (List.length l)
           (snd (Handlers.handleAddAssignment st))) = l).
Proof.
  intros l.
  assert (E : forall i st',
             State.currentAssignments (Handlers.handleRemoveAssignment i st')
             = (firstn i (State.currentAssignments st')
                  ++ skipn (S i) (State.currentAssignments st'))%list).
  { intros i st'. cbn. unfold JSLib.filter. apply (filterFrom_remove i 0). }
  split; [apply E|]. split; [|split].
  - intros H. rewrite E. fold l.
    rewrite firstn_all2 by exact H. rewrite skipn_all2 by lia. apply app_nil_r.
  - intros H. rewrite E. fold l.
    rewrite length_app, length_firstn, length_skipn. lia.
  - intros H. rewrite E. unfold Handlers.handleAddAssignment in *.
    destruct (String.eqb (JSLib.trim (State.assignmentName st)) ""
              || (State.currentAssignmentWeight st <=? 0))%bool;
      [discriminate H|].
    cbn [snd Handlers.withAssignments State.currentAssignments]. fold l.
    rewrite firstn_app, Nat.sub_diag, firstn_all. cbn [firstn].
    rewrite skipn_all2 by (rewrite length_app; cbn; lia).
    now rewrite !app_nil_r.
Qed.

Lemma handleRemoveAssignment_position_witness :
  State.currentAssignments
    (Handlers.handleRemoveAssignment 5
       (Handlers.withAssignments State.initial exampleAssignments "" "" 0))
  = exampleAssignments.
Proof.
  apply (proj1 (proj2 (handleRemoveAssignment_position 5
           (Handlers.withAssignments State.initial exampleAssignments "" "" 0)))).
  cbn. lia.
Defined.

(** X10: The list built through the add form holds accepted assignments
    only: an add is refused, with an alert and no state change, exactly
    when the name is blank or [weight <= 0]; an accepted add appends one
    assignment that keeps the entered name and weight, and clears the
    three inputs; adding and removing preserve "every assignment has a
    non-blank name and a weight that is not [<= 0]". *)
Theorem assignments_stay_accepted (st : State.t) :
  let blank := String.eqb (JSLib.trim (State.assignmentName st)) "" in
  let nonPositive := (State.currentAssignmentWeight st <=? 0) in
  ((blank || nonPositive)%bool = true ->
     exists message, Handlers.handleAddAssignment st = ([Alert message], st))
  /\ ((blank || nonPositive)%bool = false ->
      exists a,
        fst (Handlers.handleAddAssignment st) = []
        /\ State.currentAssignments (snd (Handlers.handleAddAssignment st))
           = (State.currentAssignments st ++ [a])%list
        /\ name a = State.assignmentName st
        /\ weight a = State.currentAssignmentWeight st
        /\ acceptedAssignment a
        /\ State.assignmentName (snd (Handlers.handleAddAssignment st)) = ""
        /\ State.assignmentGrade (snd (Handlers.handleAddAssignment st)) = ""
        /\ State.currentAssignmentWeight (snd (Handlers.handleAddAssignment st)) = 0)
  /\ (Forall acceptedAssignment (State.currentAssignments st) ->
      Forall acceptedAssignment
        (State.currentAssignments (snd (Handlers.handleAddAssignment st)))
      /\ forall index,
           Forall acceptedAssignment
             (State.currentAssignments (Handlers.handleRemoveAssignment index st))).
Proof.
  cbv zeta.
  assert (R : forall index,
             Forall acceptedAssignment (State.currentAssignments st) ->
             Forall acceptedAssignment
               (State.currentAssignments (Handlers.handleRemoveAssignment index st))).
  { intros index H. apply Forall_forall. intros a Ha.
    rewrite Forall_forall in H. apply H. cbn in Ha.
    eapply filterFrom_In. exact Ha. }
  unfold Handlers.handleAddAssignment.
  destruct ((String.eqb (JSLib.trim (State.assignmentName st)) "")
            || (State.currentAssignmentWeight st <=? 0))%bool eqn:C.
  - split; [|split].
    + intros _. eexists. reflexivity.
    + discriminate.
    + intros H. split; [exact H | intros; now apply R].
  - apply orb_false_iff in C as [B W].
    assert (A : acceptedAssignment
                  {| name := State.assignmentName st;
                     grade := if String.eqb (JSLib.trim (State.assignmentGrade st)) ""
                              then None
                              else Some (JS.parseFloat (State.assignmentGrade st));
                     weight := State.currentAssignmentWeight st |}).
    { split; cbn [name weight]; [|exact W]. intros Z. rewrite Z in B. discriminate. }
    split; [|split].
    + discriminate.
    + intros _. eexists. repeat split; try reflexivity; apply A.
    + intros H. split; [|intros; now apply R].
      cbn. apply Forall_app. split; [exact H|]. constructor; [exact A | constructor].
Qed.

Lemma assignments_stay_accepted_witness :
  exists message,
    Handlers.handleAddAssignment
      (Handlers.withAssignments State.initial []
         (String (ascii_of_nat 194) (String (ascii_of_nat 160) "")) "85" 10)
    = ([Alert message],
       Handlers.withAssignments State.initial []
         (String (ascii_of_nat 194) (String (ascii_of_nat 160) "")) "85" 10).
Proof.
  apply (proj1 (assignments_stay_accepted
                  (Handlers.withAssignments State.initial []
                     (String (ascii_of_nat 194) (String (ascii_of_nat 160) ""))
                     "85" 10))).
  reflexivity.
Defined.

(* ================================================================== *)
(** * The three copies of the scale average *)
(* ================================================================== *)

Lemma rowAverage_avgPercentage entry :
  Handlers.rowAverage entry
  = Spec.avgPercentage (JS.array_or (assignments entry) []).
Proof.
  unfold Handlers.rowAverage, Spec.avgPercentage, Spec.totalWeight, Spec.weightedSum.
  cbv zeta.
  rewrite (reduce_Sigma weight).
  rewrite (reduce_Sigma (fun a => Spec.gradeOrZero a * weight a)).
  reflexivity.
Qed.

(** X11: The letter shown for a scale course is the letter its grade points
    come from: the table row and the form preview compute the same
    average as [computeEntryNumeric], so the value of a scale entry is
    the table entry of the letter displayed in its row, and the entry the
    form is about to submit has the value of the previewed letter. *)
Theorem displayed_letter_gives_grade_points :
  (forall entry, entryType entry = scale ->
     computeEntryNumeric entry = JS.Own (Spec.gradePoint (Handlers.rowAverage entry))
     /\ Handlers.gradeCell entry
        = JS.toFixed 2 (Handlers.rowAverage entry) ++ "% ("
            ++ percentageToLetter (Handlers.rowAverage entry) ++ ")"
     /\ JS.get letterToNumeric (percentageToLetter (Handlers.rowAverage entry))
        = Some (computeEntryNumeric entry))
  /\ (forall st, State.entryType st = scale ->
        Handlers.rowAverage (Handlers.newEntry st) = Handlers.currentAverage st
        /\ JS.get letterToNumeric (Handlers.computedLetter st)
           = Some (computeEntryNumeric (Handlers.newEntry st))).
Proof.
  assert (A : forall entry, entryType entry = scale ->
                computeEntryNumeric entry
                = JS.Own (Spec.gradePoint (Handlers.rowAverage entry))
                /\ JS.get letterToNumeric (percentageToLetter (Handlers.rowAverage entry))
                   = Some (computeEntryNumeric entry)).
  { intros entry H. rewrite (computeEntryNumeric_scale entry H).
    rewrite rowAverage_avgPercentage.
    destruct (scale_lookup (Spec.avgPercentage (JS.array_or (assignments entry) [])))
      as (E1 & E2).
    rewrite E1. split; [reflexivity | exact E2]. }
  split.
  - intros entry H. destruct (A entry H) as (E1 & E2).
    split; [exact E1|]. split; [|exact E2].
    unfold Handlers.gradeCell. now rewrite H.
  - intros st H.
    assert (R : Handlers.rowAverage (Handlers.newEntry st) = Handlers.currentAverage st).
    { unfold Handlers.rowAverage, Handlers.newEntry. cbn [assignments].
      rewrite H. reflexivity. }
    split; [exact R|].
    unfold Handlers.computedLetter. rewrite <- R.
    apply A. cbn. exact H.
Qed.

Lemma displayed_letter_gives_grade_points_witness :
  JS.get letterToNumeric
    (percentageToLetter (Handlers.rowAverage (scaleEntry exampleAssignments)))
  = Some (computeEntryNumeric (scaleEntry exampleAssignments)).
Proof.
  apply (proj1 displayed_letter_gives_grade_points (scaleEntry exampleAssignments)).
  reflexivity.
Defined.

(* ================================================================== *)
(** * Loading, editing and submitting *)
(* ================================================================== *)

Lemma loadCourses_map docs : loadCourses (Some docs) = map loaded docs.
Proof.
  unfold loadCourses.
  change (fold_left (fun courses docSnap => (courses ++ [loaded docSnap])%list) docs []
          = map loaded docs).
  assert (G : forall acc,
             fold_left (fun courses docSnap => (courses ++ [loaded docSnap])%list) docs acc
             = (acc ++ map loaded docs)%list).
  { induction docs as [|d docs IH]; intros acc; cbn.
    - now rewrite app_nil_r.
    - rewrite IH, <- app_assoc. reflexivity. }
  apply (G []).
Qed.

Lemma loaded_numeric d :
  computeEntryNumeric (loaded d) = computeEntryNumeric (snd d)
  /\ Spec.creditsOf (loaded d) = Spec.creditsOf (snd d).
Proof. split; reflexivity. Qed.

(** X12: Loading is transparent to the aggregates: the collection has one
    entry per document, in order; every entry has an id, which is the
    document id for data without an [id] field; and grade points and CGPA
    are those of the stored data. *)
Theorem loadCourses_transparent (docs : list (string * CourseEntry)) :
  List.length (loadCourses (Some docs)) = List.length docs
  /\ (forall e, In e (loadCourses (Some docs)) -> id e <> None)
  /\ ((forall d, In d docs -> id (snd d) = None) ->
      map id (loadCourses (Some docs)) = map (fun d => Some (fst d)) docs)
  /\ map computeEntryNumeric (loadCourses (Some docs))
     = map (fun d => computeEntryNumeric (snd d)) docs
  /\ computeAverageCGPA (loadCourses (Some docs)) = computeAverageCGPA (map snd docs).
Proof.
  rewrite loadCourses_map. split; [apply length_map|].
  split; [|split; [|split]].
  - intros e He. apply in_map_iff in He as (d & <- & _).
    cbn. destruct (id (snd d)); discriminate.
  - intros H. rewrite map_map. apply map_ext_in. intros d Hd.
    cbn. now rewrite (H d Hd).
  - rewrite map_map. reflexivity.
  - destruct docs as [|d docs]; [reflexivity|].
    rewrite !computeAverageCGPA_Sigma by discriminate.
    unfold Spec.totalWeightedPoints, Spec.totalCredits.
    rewrite !map_map. reflexivity.
Qed.

Lemma loadCourses_transparent_witness :
  map id (loadCourses (Some [("doc1", finalEntry "A" (Some 3))]))
  = map (fun d => Some (fst d)) [("doc1", finalEntry "A" (Some 3))].
Proof.
  apply (proj1 (proj2 (proj2 (loadCourses_transparent
                                [("doc1", finalEntry "A" (Some 3))])))).
  intros d [<- | []]. reflexivity.
Defined.

Lemma find_by_id (l : list CourseEntry) entry docId :
  In entry l -> id entry = Some docId -> NoDup (map id l) ->
  find (fun c => match id c with
                 | Some i => String.eqb i docId
                 | None => false
                 end) l = Some entry.
Proof.
  induction l as [|c l IH]; intros Hin Hid ND; [contradiction|].
  inversion ND as [|? ? Hnot ND']; subst. cbn [find].
  destruct Hin as [-> | Hin].
  - now rewrite Hid, String.eqb_refl.
  - destruct (id c) as [i|] eqn:Ec.
    + destruct (String.eqb_spec i docId) as [-> | _]; [|now apply IH].
      exfalso. apply Hnot. rewrite <- Hid. now apply in_map.
    + now apply IH.
Qed.

Lemma truthy_nonempty s : JSLib.truthy s = true <-> s <> "".
Proof.
  unfold JSLib.truthy. destruct (String.eqb_spec s ""); cbn; split; intros;
    congruence.
Qed.

(** X13: Editing a course and saving it unchanged rewrites the same
    document with the same course, term, goal, entry type and grade-point
    value; the rebuilt entry carries credits 3 and no [id] field. *)
Theorem edit_then_submit (st : State.t) (entry : CourseEntry) (docId : string)
    (snapshot : option (list (string * CourseEntry))) :
  In entry (State.progressData st) ->
  id entry = Some docId -> docId <> "" ->
  NoDup (map id (State.progressData st)) ->
  year entry <> "" -> semester entry <> "" ->
  let st1 := Handlers.onEditClick entry st in
  let e' := Handlers.newEntry st1 in
  fst (Handlers.handleFormSubmit snapshot st1)
  = [UpdateCourseEntry docId e'; LoadCourses]
  /\ course e' = course entry /\ year e' = year entry
  /\ semester e' = semester entry /\ goalGrade e' = goalGrade entry
  /\ entryType e' = entryType entry
  /\ computeEntryNumeric e' = computeEntryNumeric entry
  /\ credits e' = Some 3 /\ id e' = None.
Proof.
  intros Hin Hid Hdoc ND Hy Hs st1 e'.
  assert (T : JSLib.truthy docId = true) by now apply truthy_nonempty.
  assert (E1 : st1 = Handlers.handleEdit docId st).
  { unfold st1, Handlers.onEditClick. now rewrite Hid, T. }
  unfold e'. rewrite E1. unfold Handlers.handleEdit.
  rewrite (find_by_id _ entry docId Hin Hid ND).
  unfold Handlers.handleFormSubmit, Handlers.newEntry.
  cbn [State.formYear State.formSemester State.isEditing State.editId
       State.course State.goalGrade State.entryType State.finalGrade
       State.currentAssignments course year semester goalGrade entryType
       credits id].
  apply truthy_nonempty in Hy, Hs. rewrite Hy, Hs, T. cbn [negb orb fst].
  repeat split.
  unfold computeEntryNumeric. cbn [entryType finalGrade assignments].
  destruct (entryType entry); cbn [JS.array_or].
  - destruct (finalGrade entry) as [g|]; cbn [JS.string_or]; [|reflexivity].
    destruct (String.eqb g "") eqn:Eg; [reflexivity | now rewrite Eg].
  - destruct (assignments entry); reflexivity.
Qed.

Lemma edit_then_submit_witness :
  let entry := loaded ("doc1", finalEntry "B" (Some 4)) in
  let st := Handlers.onMount (Some [("doc1", finalEntry "B" (Some 4))]) State.initial in
  fst (Handlers.handleFormSubmit None (Handlers.onEditClick entry st))
  = [UpdateCourseEntry "doc1" (Handlers.newEntry (Handlers.onEditClick entry st));
     LoadCourses].
Proof.
  cbv zeta.
  apply (edit_then_submit
           (Handlers.onMount (Some [("doc1", finalEntry "B" (Some 4))]) State.initial)
           (loaded ("doc1", finalEntry "B" (Some 4))) "doc1" None).
  - left. reflexivity.
  - reflexivity.
  - discriminate.
  - cbn. constructor; [intros [] | constructor].
  - discriminate.
  - discriminate.
Defined.

(* ================================================================== *)
(** * Invariants of the component *)
(* ================================================================== *)

Lemma step_editingConsistent ev st :
  editingConsistent st -> editingConsistent (snd (step ev st)).
Proof.
  unfold editingConsistent. intros H.
  destruct ev; cbn [step snd]; try exact H.
  - (* SemesterSelect *)
    unfold Handlers.handleSemesterSelect.
    destruct (negb (JSLib.truthy (State.selectedYear st))); exact H.
  - (* AddAssignment *)
    unfold Handlers.handleAddAssignment.
    destruct (_ || _)%bool; exact H.
  - (* FormSubmit *)
    unfold Handlers.handleFormSubmit.
    destruct (_ || _)%bool; [exact H|].
    destruct (State.isEditing st) eqn:Ed, (State.editId st) as [i|] eqn:Ei;
      try destruct (JSLib.truthy i) eqn:T; cbn; try reflexivity;
      try (destruct H; congruence).
    destruct H as [_ N]. apply truthy_nonempty in N. congruence.
  - (* EditClick *)
    unfold Handlers.onEditClick.
    destruct (id entry) as [i|]; [|exact H].
    destruct (JSLib.truthy i) eqn:T; [|exact H].
    unfold Handlers.handleEdit.
    destruct (find _ _); [|exact H].
    cbn. split; [reflexivity | now apply truthy_nonempty].
  - (* CancelEdit *)
    reflexivity.
  - (* DeleteClick *)
    unfold Handlers.onDeleteClick.
    destruct (id entry) as [i|]; [|exact H].
    destruct (confirmed && JSLib.truthy i)%bool; exact H.
  - (* Resume *)
    destruct k; try exact H. reflexivity.
Qed.

(** X14: In every state the component can reach, under every
    interleaving of its asynchronous handlers, [isEditing] holds exactly
    when [editId] names a document.  So a submit that passes the year and
    semester check requests an update of that document when editing and
    a save otherwise, never both; the continuation of an update leaves
    edit mode whenever it runs, and the continuation of a save leaves
    both editing cells as it finds them. *)
Theorem editing_cells_agree (st : State.t)
    (snapshot : option (list (string * CourseEntry))) :
  reachable st ->
  editingConsistent st
  /\ (State.formYear st <> "" -> State.formSemester st <> "" ->
      fst (Handlers.handleFormSubmit snapshot st)
      = match State.editId st with
        | Some docId => [UpdateCourseEntry docId (Handlers.newEntry st); LoadCourses]
        | None => [SaveCourse (Handlers.newEntry st); LoadCourses]
        end
      /\ Handlers.submitPending st
         = Some match State.editId st with
                | Some _ => AfterUpdate
                | None => AfterSave
                end
      /\ snd (Handlers.handleFormSubmit snapshot st)
         = match Handlers.submitPending st with
           | Some k => Handlers.resume k snapshot st
           | None => st
           end)
  /\ (forall later snapshot',
        State.isEditing (Handlers.resume AfterUpdate snapshot' later) = false
        /\ State.editId (Handlers.resume AfterUpdate snapshot' later) = None
        /\ State.isEditing (Handlers.resume AfterSave snapshot' later)
           = State.isEditing later
        /\ State.editId (Handlers.resume AfterSave snapshot' later)
           = State.editId later).
Proof.
  intros R.
  assert (C : editingConsistent st).
  { induction R as [|ev st R IH]; [reflexivity|]. now apply step_editingConsistent. }
  split; [exact C|]. split; [|intros later snapshot'; repeat split].
  intros Hy Hs. apply truthy_nonempty in Hy, Hs.
  unfold Handlers.handleFormSubmit, Handlers.submitPending.
  rewrite Hy, Hs. cbn [negb orb].
  unfold editingConsistent in C.
  destruct (State.editId st) as [i|] eqn:Ei.
  - destruct C as [-> N]. apply truthy_nonempty in N. rewrite N.
    repeat split.
  - rewrite C. cbn. rewrite ?Ei, ?C. repeat split.
Qed.

Lemma editing_cells_agree_witness :
  let st := snd (step (EditClick (loaded ("doc1", finalEntry "B" (Some 3))))
                   (snd (step (Resume AfterMount (Some [("doc1", finalEntry "B" (Some 3))]))
                           (snd (step (YearSelect "2024") State.initial))))) in
  fst (Handlers.handleFormSubmit None st)
  = [UpdateCourseEntry "doc1" (Handlers.newEntry st); LoadCourses].
Proof.
  cbv zeta.
  apply (editing_cells_agree
           (snd (step (EditClick (loaded ("doc1", finalEntry "B" (Some 3))))
                   (snd (step (Resume AfterMount (Some [("doc1", finalEntry "B" (Some 3))]))
                           (snd (step (YearSelect "2024") State.initial)))))) None).
  - apply reachable_step, reachable_step, reachable_step, reachable_initial.
  - discriminate.
  - discriminate.
Defined.

(** X15: Choosing a semester points the form at the selected term; and
    a course submitted for a term is listed in that term's table once
    the reload of its submit returns its document, provided that term is
    the one selected when the continuation runs, whatever else was
    handled in between. *)
Theorem submitted_course_is_listed (st : State.t) (semester' : string)
    (docs : list (string * CourseEntry)) (docId : string) :
  State.selectedYear st <> "" -> semester' <> "" ->
  let st1 := Handlers.handleSemesterSelect semester' st in
  (State.formYear st1 = State.selectedYear st1
   /\ State.formSemester st1 = State.selectedSemester st1
   /\ State.selectedSemester st1 = semester')
  /\ forall st2 later k,
       State.formYear st2 = State.formYear st1 ->
       State.formSemester st2 = State.formSemester st1 ->
       Handlers.submitPending st2 = Some k ->
       State.selectedYear later = State.formYear st2 ->
       State.selectedSemester later = State.formSemester st2 ->
       In (docId, Handlers.newEntry st2) docs ->
       In (loaded (docId, Handlers.newEntry st2))
          (Handlers.filteredEntries (Handlers.resume k (Some docs) later)).
Proof.
  intros Hy Hs st1. apply truthy_nonempty in Hy, Hs.
  assert (E : st1 = Handlers.handleSemesterSelect semester' st) by reflexivity.
  unfold Handlers.handleSemesterSelect in E. rewrite Hy in E. cbn [negb] in E.
  split; [rewrite E; repeat split|].
  intros st2 later k FY FS Hk Y S Hin.
  assert (FY1 : State.formYear st1 = State.selectedYear st) by now rewrite E.
  assert (FS1 : State.formSemester st1 = semester') by now rewrite E.
  assert (K : k = AfterUpdate \/ k = AfterSave).
  { unfold Handlers.submitPending in Hk.
    destruct (_ || _)%bool; [discriminate|].
    destruct (State.isEditing st2), (State.editId st2) as [i|];
      try destruct (JSLib.truthy i); injection Hk as <-; auto. }
  assert (F : forall b o,
             In (loaded (docId, Handlers.newEntry st2))
                (Handlers.filteredEntries
                   (Handlers.cleared later (loadCourses (Some docs)) b o))).
  { intros b o. unfold Handlers.filteredEntries.
    cbn [Handlers.cleared State.selectedYear State.selectedSemester State.progressData].
    rewrite Y, S, FY, FS, FY1, FS1, Hy, Hs. cbn [andb].
    apply filter_In. split.
    - rewrite loadCourses_map. now apply in_map.
    - cbn. rewrite FY, FS, FY1, FS1. now rewrite !String.eqb_refl. }
  destruct K as [-> | ->]; apply F.
Qed.

Lemma submitted_course_is_listed_witness :
  let st1 := Handlers.handleSemesterSelect "Fall"
               (Handlers.handleYearSelect "2024" State.initial) in
  In (loaded ("doc7", Handlers.newEntry st1))
     (Handlers.filteredEntries
        (Handlers.resume AfterSave (Some [("doc7", Handlers.newEntry st1)])
           (Handlers.toggleTotalCgpa st1))).
Proof.
  cbv zeta.
  apply (proj2 (submitted_course_is_listed
                  (Handlers.handleYearSelect "2024" State.initial) "Fall"
                  [("doc7", Handlers.newEntry
                              (Handlers.handleSemesterSelect "Fall"
                                 (Handlers.handleYearSelect "2024" State.initial)))]
                  "doc7" ltac:(discriminate) ltac:(discriminate)));
    try reflexivity.
  left. reflexivity.
Defined.


(** X17: When the reload fails, [loadCourses] yields the empty collection,
    and the mount effect, an accepted submit and a confirmed delete all
    replace the displayed collection by it: every course disappears and
    the total CGPA becomes ["N/A"]. *)
Theorem failed_reload_empties_collection (st : State.t) :
  loadCourses None = []
  /\ State.progressData (Handlers.onMount None st) = []
  /\ (State.formYear st <> "" -> State.formSemester st <> "" ->
      State.progressData (snd (Handlers.handleFormSubmit None st)) = []
      /\ Handlers.totalCgpa (snd (Handlers.handleFormSubmit None st)) = "N/A")
  /\ (forall entry docId, id entry = Some docId -> docId <> "" ->
      State.progressData (snd (Handlers.onDeleteClick true None entry st)) = []
      /\ Handlers.totalCgpa (snd (Handlers.onDeleteClick true None entry st)) = "N/A").
Proof.
  split; [reflexivity|]. split; [reflexivity|]. split.
  - intros Hy Hs. apply truthy_nonempty in Hy, Hs.
    unfold Handlers.handleFormSubmit. rewrite Hy, Hs. cbn [negb orb].
    destruct (State.isEditing st), (State.editId st) as [i|];
      try destruct (JSLib.truthy i); split; reflexivity.
  - intros entry docId Hid Hd. apply truthy_nonempty in Hd.
    unfold Handlers.onDeleteClick. rewrite Hid, Hd. split; reflexivity.
Qed.

Lemma failed_reload_empties_collection_witness :
  let st := Handlers.onMount (Some [("doc1", finalEntry "A" (Some 3))]) State.initial in
  State.progressData
    (snd (Handlers.onDeleteClick true None
            (loaded ("doc1", finalEntry "A" (Some 3))) st)) = []
  /\ Handlers.totalCgpa
       (snd (Handlers.onDeleteClick true None
               (loaded ("doc1", finalEntry "A" (Some 3))) st)) = "N/A".
Proof.
  cbv zeta.
  apply (proj2 (proj2 (proj2 (failed_reload_empties_collection
           (Handlers.onMount (Some [("doc1", finalEntry "A" (Some 3))]) State.initial))))
         (loaded ("doc1", finalEntry "A" (Some 3))) "doc1").
  - reflexivity.
  - discriminate.
Defined.
